(** * open3d_slam: voxel down-sampling helpers and the lidar odometry step

    A shallow embedding of
      - [src/m545_volumetric_mapping/src/helpers.cpp]
        ([AccumulatedPoint], [isInside], [voxelize], [voxelizeAroundPosition]),
      - [src/open3d_slam/src/Odometry.cpp] ([LidarOdometry::addRangeScan]).

    Conventions.
      - A C++ [double] is a primitive binary64 float, so [NaN], signed zeros
        and rounding behave as they do in the program.
      - [Eigen::Vector3d] is a record of three doubles, [Eigen::Vector3i] a
        triple of integers; a [std::vector] is a list.
      - The [std::unordered_map] of the voxel grid is a [gmap]; the order in
        which the program iterates over it is unspecified, so it is a
        parameter that is only known to enumerate the map.
      - Open3D and Eigen routines that the sources call but do not define are
        parameters (a type class for the odometry); they are assumed to
        return normally.  Writes to [std::cout] / [std::cerr] are not part of
        the state and are left out. *)

From Stdlib Require Import ZArith List Floats.
From Stdlib Require Import Sorted.
From stdpp Require Import base strings gmap list.

Local Open Scope Z_scope.

(** ** Doubles and Eigen vectors *)

Abbreviation double := float.

Module D.

Definition zero : double := 0%float.
Definition add (a b : double) : double := (a + b)%float.
Definition sub (a b : double) : double := (a - b)%float.
Definition mul (a b : double) : double := (a * b)%float.
Definition div (a b : double) : double := (a / b)%float.

(** [a < b], [a <= b], [a > b], [a >= b] and [a == b] of C++: false as soon
    as an operand is NaN. *)
Definition lt (a b : double) : bool := (a <? b)%float.
Definition le (a b : double) : bool := (a <=? b)%float.
Definition gt (a b : double) : bool := (b <? a)%float.
Definition ge (a b : double) : bool := (b <=? a)%float.
Definition eq (a b : double) : bool := (a =? b)%float.

Definition isnan (a : double) : bool := PrimFloat.is_nan a.

(** [std::sqrt]. *)
Definition sqrt (a : double) : double := PrimFloat.sqrt a.

(** [double(n)] for an [int] [n]; exact, every 32-bit integer is a double.
    Only used at [n >= 0]. *)
Definition of_int (n : Z) : double := PrimFloat.of_uint63 (Uint63.of_Z n).

End D.

(** [int] of the program: 32 bits, two's complement. *)
Definition INT_MAX : Z := 2147483647.

(** [(int) n] for an unsigned [size_t] value [n]. *)
Definition to_int (n : Z) : Z := (n + 2 ^ 31) mod 2 ^ 32 - 2 ^ 31.

Record Vector3d := Vec3 { vx : double; vy : double; vz : double }.

Abbreviation Vector3i := (Z * Z * Z)%type.

Definition Vzero : Vector3d := Vec3 D.zero D.zero D.zero.

Definition vadd (a b : Vector3d) : Vector3d :=
  Vec3 (D.add (vx a) (vx b)) (D.add (vy a) (vy b)) (D.add (vz a) (vz b)).

Definition vsub (a b : Vector3d) : Vector3d :=
  Vec3 (D.sub (vx a) (vx b)) (D.sub (vy a) (vy b)) (D.sub (vz a) (vz b)).

(** [v / s] of Eigen: the quotient coefficient by coefficient. *)
Definition vdiv (a : Vector3d) (s : double) : Vector3d :=
  Vec3 (D.div (vx a) s) (D.div (vy a) s) (D.div (vz a) s).

(** [v.maxCoeff()] of Eigen on a fixed vector of three doubles: the scalar
    reduction with [(a < b) ? b : a]. *)
Definition fmax (a b : double) : double := if D.lt a b then b else a.

Definition maxCoeff (v : Vector3d) : double := fmax (fmax (vx v) (vy v)) (vz v).

(** The sum of a sequence of vectors the way the program forms it: starting
    from zero, one [+=] per element, in the order of the sequence. *)
Definition vsum (l : list Vector3d) : Vector3d := fold_left vadd l Vzero.

(** ** Point clouds (open3d::geometry::PointCloud) *)

Record PointCloud := mkPointCloud {
  points_ : list Vector3d;
  normals_ : list Vector3d;
  colors_ : list Vector3d
}.

Definition emptyCloud : PointCloud := mkPointCloud [] [] [].

Definition HasPoints (c : PointCloud) : bool := (0 <? length (points_ c))%nat.

Definition HasNormals (c : PointCloud) : bool :=
  HasPoints c && (length (normals_ c) =? length (points_ c))%nat.

Definition HasColors (c : PointCloud) : bool :=
  HasPoints c && (length (colors_ c) =? length (points_ c))%nat.

Definition IsEmpty (c : PointCloud) : bool := negb (HasPoints c).

Record AxisAlignedBoundingBox := mkBox {
  min_bound_ : Vector3d;
  max_bound_ : Vector3d
}.

(** Whether a coefficient of the vector is NaN. *)
Definition has_nan (v : Vector3d) : bool :=
  D.isnan (vx v) || D.isnan (vy v) || D.isnan (vz v).

(** [v[i]] of a [std::vector]; the program only indexes in range (outside it
    the behaviour is undefined, here it reads [Vzero]). *)
Definition at_ (v : list Vector3d) (i : nat) : Vector3d := nth i v Vzero.

(** ** helpers.cpp *)

Module m545_mapping.

(** *** class AccumulatedPoint *)

Record AccumulatedPoint := mkAcc {
  num_of_points_ : Z;
  point_ : Vector3d;
  normal_ : Vector3d;
  color_ : Vector3d
}.

(** The constructor. *)
Definition AccumulatedPoint_new : AccumulatedPoint := mkAcc 0 Vzero Vzero Vzero.

(** A normal takes part in the sum when none of its coefficients is NaN. *)
Definition normal_is_valid (n : Vector3d) : bool :=
  negb (D.isnan (vx n)) && negb (D.isnan (vy n)) && negb (D.isnan (vz n)).

Definition AddPoint (a : AccumulatedPoint) (cloud : PointCloud) (index : nat)
  : AccumulatedPoint :=
  let point := vadd (point_ a) (at_ (points_ cloud) index) in
  let normal :=
    if HasNormals cloud then
      if normal_is_valid (at_ (normals_ cloud) index)
      then vadd (normal_ a) (at_ (normals_ cloud) index)
      else normal_ a
    else normal_ a in
  let color :=
    if HasColors cloud then vadd (color_ a) (at_ (colors_ cloud) index)
    else color_ a in
  mkAcc (num_of_points_ a + 1) point normal color.

Definition GetAveragePoint (a : AccumulatedPoint) : Vector3d :=
  vdiv (point_ a) (D.of_int (num_of_points_ a)).

Definition GetAverageNormal (a : AccumulatedPoint) : Vector3d :=
  vdiv (normal_ a) (D.of_int (num_of_points_ a)).

Definition GetAverageColor (a : AccumulatedPoint) : Vector3d :=
  vdiv (color_ a) (D.of_int (num_of_points_ a)).

(** *** isInside *)

Definition isInside (bbox : AxisAlignedBoundingBox) (p : Vector3d) : bool :=
  D.le (vx p) (vx (max_bound_ bbox)) && D.le (vy p) (vy (max_bound_ bbox))
  && D.le (vz p) (vz (max_bound_ bbox))
  && D.ge (vx p) (vx (min_bound_ bbox)) && D.ge (vy p) (vy (min_bound_ bbox))
  && D.ge (vz p) (vz (min_bound_ bbox)).

(** *** voxelize *)

Definition voxelize (VoxelDownSample : PointCloud -> double -> PointCloud)
    (voxelSize : double) (pcl : PointCloud) : PointCloud :=
  if D.le voxelSize D.zero then pcl else VoxelDownSample pcl voxelSize.

(** *** estimateNormals *)

Definition estimateNormals (EstimateNormals : PointCloud -> Z -> PointCloud)
    (numNearestNeighbours : Z) (pcl : PointCloud) : PointCloud :=
  EstimateNormals pcl numNearestNeighbours.

(** *** voxelizeAroundPosition *)

Inductive exception := runtime_error (what : string).

Abbreviation VoxelMap := (gmap Vector3i AccumulatedPoint).

Section VoxelizeAroundPosition.

(** [getVoxelIdx] and [computeVoxelBounds] are declared in Voxel.hpp, which is
    not among the sources; [traverse] is the order in which the program
    iterates over the unordered map. *)
Variable getVoxelIdx : Vector3d -> Vector3d -> Vector3d -> Vector3d -> Vector3i.
Variable computeVoxelBounds : PointCloud -> Vector3d -> Vector3d * Vector3d.
Variable traverse : VoxelMap -> list (Vector3i * AccumulatedPoint).

(** [voxelindex_to_accpoint[voxelIdx].AddPoint(cloud, i)]: [operator[]]
    default-constructs the entry when the key is new. *)
Definition accumulate (m : VoxelMap) (voxelIdx : Vector3i) (cloud : PointCloud)
    (i : nat) : VoxelMap :=
  <[voxelIdx := AddPoint (default AccumulatedPoint_new (m !! voxelIdx)) cloud i]> m.

(** One [push_back] on [points_], and on [normals_] and [colors_] under
    their flags. *)
Definition push_point (has_normals has_colors : bool) (output : PointCloud)
    (p n c : Vector3d) : PointCloud :=
  mkPointCloud (points_ output ++ [p])
    (if has_normals then normals_ output ++ [n] else normals_ output)
    (if has_colors then colors_ output ++ [c] else colors_ output).

(** Body of the first loop, at index [i]. *)
Definition scan_point (bbox : AxisAlignedBoundingBox) (cloud : PointCloud)
    (voxelSize voxelMinBound voxelMaxBound : Vector3d)
    (st : VoxelMap * PointCloud) (i : nat) : VoxelMap * PointCloud :=
  if isInside bbox (at_ (points_ cloud) i) then
    let voxelIdx :=
      getVoxelIdx (at_ (points_ cloud) i) voxelSize voxelMinBound voxelMaxBound in
    (accumulate st.1 voxelIdx cloud i, st.2)
  else
    (st.1,
     push_point (HasNormals cloud) (HasColors cloud) st.2
       (at_ (points_ cloud) i) (at_ (normals_ cloud) i) (at_ (colors_ cloud) i)).

(** Body of the second loop, at one entry of the map. *)
Definition emit_voxel (has_normals has_colors : bool) (output : PointCloud)
    (accpoint : Vector3i * AccumulatedPoint) : PointCloud :=
  push_point has_normals has_colors output
    (GetAveragePoint accpoint.2) (GetAverageNormal accpoint.2)
    (GetAverageColor accpoint.2).

(** The indices [0, 1, ..., (int) cloud.points_.size() - 1] of the first loop. *)
Definition scan_indices (cloud : PointCloud) : list nat :=
  seq 0 (Z.to_nat (to_int (Z.of_nat (length (points_ cloud))))).

(** The guard [voxel_size * INT_MAX < (max - min).maxCoeff()]. *)
Definition too_small (voxel_size : double) (voxelMinBound voxelMaxBound : Vector3d)
  : bool :=
  D.lt (D.mul voxel_size (D.of_int INT_MAX))
       (maxCoeff (vsub voxelMaxBound voxelMinBound)).

Definition voxelizeAroundPosition (voxel_size : double)
    (bbox : AxisAlignedBoundingBox) (cloud : PointCloud)
  : exception + PointCloud :=
  if D.le voxel_size D.zero then inr cloud
  else
    let voxelSize := Vec3 voxel_size voxel_size voxel_size in
    let voxelBounds := computeVoxelBounds cloud voxelSize in
    let voxelMinBound := voxelBounds.1 in
    let voxelMaxBound := voxelBounds.2 in
    if too_small voxel_size voxelMinBound voxelMaxBound then
      inl (runtime_error "[VoxelDownSample] voxel_size is too small.")
    else
      let has_normals := HasNormals cloud in
      let has_colors := HasColors cloud in
      let st :=
        fold_left (scan_point bbox cloud voxelSize voxelMinBound voxelMaxBound)
          (scan_indices cloud) (∅, emptyCloud) in
      inr (fold_left (emit_voxel has_normals has_colors) (traverse st.1) st.2).

(** **** What the loops compute, said without the loops *)

(** The indices of the points of the cloud that lie in the box and fall in
    voxel [k], in input order; and of those outside the box. *)
Definition members (bbox : AxisAlignedBoundingBox) (cloud : PointCloud)
    (voxelSize voxelMinBound voxelMaxBound : Vector3d) (k : Vector3i)
    (l : list nat) : list nat :=
  filter (λ i, isInside bbox (at_ (points_ cloud) i) = true
             ∧ getVoxelIdx (at_ (points_ cloud) i) voxelSize voxelMinBound
                 voxelMaxBound = k) l.

Definition outside (bbox : AxisAlignedBoundingBox) (cloud : PointCloud)
    (l : list nat) : list nat :=
  filter (λ i, isInside bbox (at_ (points_ cloud) i) = false) l.

(** The bounds and the members of a voxel for a call of
    [voxelizeAroundPosition]. *)
Definition bounds_of (voxel_size : double) (cloud : PointCloud)
  : Vector3d * Vector3d :=
  computeVoxelBounds cloud (Vec3 voxel_size voxel_size voxel_size).

Definition voxel_members (voxel_size : double) (bbox : AxisAlignedBoundingBox)
    (cloud : PointCloud) (k : Vector3i) : list nat :=
  members bbox cloud (Vec3 voxel_size voxel_size voxel_size)
    (bounds_of voxel_size cloud).1 (bounds_of voxel_size cloud).2 k
    (scan_indices cloud).

(** The accumulator of voxel [k] once the first loop is over. *)
Definition voxel_accumulator (voxel_size : double) (bbox : AxisAlignedBoundingBox)
    (cloud : PointCloud) (k : Vector3i) : AccumulatedPoint :=
  fold_left (λ a i, AddPoint a cloud i) (voxel_members voxel_size bbox cloud k)
    AccumulatedPoint_new.

(** The cloud that [voxelizeAroundPosition] returns when it visits the
    occupied voxels in the order [keys]: the points outside the box as they
    are, then one point per voxel. *)
Definition carved_cloud (voxel_size : double) (bbox : AxisAlignedBoundingBox)
    (cloud : PointCloud) (keys : list Vector3i) : PointCloud :=
  let out := outside bbox cloud (scan_indices cloud) in
  let acc := voxel_accumulator voxel_size bbox cloud in
  mkPointCloud
    ((at_ (points_ cloud) <$> out) ++ ((λ k, GetAveragePoint (acc k)) <$> keys))
    (if HasNormals cloud
     then (at_ (normals_ cloud) <$> out) ++ ((λ k, GetAverageNormal (acc k)) <$> keys)
     else [])
    (if HasColors cloud
     then (at_ (colors_ cloud) <$> out) ++ ((λ k, GetAverageColor (acc k)) <$> keys)
     else []).

(** The indices, in input order, of all the points of the cloud that lie in
    the box and fall in voxel [k]. *)
Definition in_voxel (voxel_size : double) (bbox : AxisAlignedBoundingBox)
    (cloud : PointCloud) (k : Vector3i) : list nat :=
  members bbox cloud (Vec3 voxel_size voxel_size voxel_size)
    (bounds_of voxel_size cloud).1 (bounds_of voxel_size cloud).2 k
    (seq 0 (length (points_ cloud))).

End VoxelizeAroundPosition.

(** The points outside the box, and the normals and colors that go with
    them, in input order. *)
Definition outside_points (bbox : AxisAlignedBoundingBox) (cloud : PointCloud)
  : list Vector3d :=
  filter (λ p, isInside bbox p = false) (points_ cloud).

Definition outside_attributes (bbox : AxisAlignedBoundingBox)
    (points attributes : list Vector3d) : list Vector3d :=
  (filter (λ pa, isInside bbox pa.1 = false) (zip points attributes)).*2.

(** The valid normals among the points with the given indices. *)
Definition valid_normals (cloud : PointCloud) (ixs : list nat) : list Vector3d :=
  filter (λ n, normal_is_valid n = true) (at_ (normals_ cloud) <$> ixs).

(** The average position of the points [ixs] of a voxel. *)
Definition mean_point (cloud : PointCloud) (ixs : list nat) : Vector3d :=
  vdiv (vsum (at_ (points_ cloud) <$> ixs)) (D.of_int (Z.of_nat (length ixs))).

(** The normal the program gives the voxel: the sum of the valid normals over
    the number of all points of the voxel. *)
Definition summed_normal_over_points (cloud : PointCloud) (ixs : list nat)
  : Vector3d :=
  vdiv (vsum (valid_normals cloud ixs)) (D.of_int (Z.of_nat (length ixs))).

(** The normal in the words of the specification: the sum of the valid
    normals over the number of points that contributed a valid normal. *)
Definition mean_of_valid_normals (cloud : PointCloud) (ixs : list nat)
  : Vector3d :=
  vdiv (vsum (valid_normals cloud ixs))
       (D.of_int (Z.of_nat (length (valid_normals cloud ixs)))).

Definition mean_color (cloud : PointCloud) (ixs : list nat) : Vector3d :=
  vdiv (vsum (at_ (colors_ cloud) <$> ixs)) (D.of_int (Z.of_nat (length ixs))).

(** *** boundingBoxAroundPosition *)

Definition boundingBoxAroundPosition (low high origin : Vector3d)
  : AxisAlignedBoundingBox :=
  mkBox (vadd origin low) (vadd origin high).

(** *** computePointCloudDistance *)

Section ComputePointCloudDistance.

(** [KDTreeFlann::SearchKNN] on the tree of a cloud: the query point, [knn],
    and the two output vectors as they are passed in; the value returned and
    the output vectors as the call leaves them. *)
Variable SearchKNN :
  PointCloud -> Vector3d -> Z -> list Z -> list double -> Z * list Z * list double.

(** The search of one iteration, for the point [idx] of the reference:
    [knn] is 1, the output vectors start as [ids(knn)] and [dists(knn)]. *)
Definition search_nearest (reference cloud : PointCloud) (idx : Z)
  : Z * list Z * list double :=
  SearchKNN cloud (at_ (points_ reference) (Z.to_nat idx)) 1 [0] [D.zero].

(** What the iteration stores in [distances[i]] and [indices[i]]; the index,
    a [size_t], is stored in an [int]. *)
Definition nearest_entry (reference cloud : PointCloud) (idx : Z) : double * Z :=
  let found := search_nearest reference cloud idx in
  if negb (found.1.1 =? 0)
  then (D.sqrt (nth 0 found.2 D.zero), to_int idx)
  else ((-1)%float, -1).

(** The loop; its iterations fill one slot each and share nothing, so the
    parallel loop is the sequential one. *)
Definition distance_loop (reference cloud : PointCloud) (idsInReference : list Z)
  : list double * list Z :=
  fold_left
    (λ st i,
       let entry := nearest_entry reference cloud (nth i idsInReference 0) in
       (<[i := entry.1]> st.1, <[i := entry.2]> st.2))
    (seq 0 (Z.to_nat (to_int (Z.of_nat (length idsInReference)))))
    (repeat D.zero (length idsInReference), repeat 0 (length idsInReference)).

(** The distances, and the ids in the reference that go with them. *)
Definition computePointCloudDistance (reference cloud : PointCloud)
    (idsInReference : list Z) : list double * list Z :=
  let st := distance_loop reference cloud idsInReference in
  let distsRet := filter (λ x, D.ge x D.zero = true) st.1 in
  let idsRet := filter (λ x, 0 ≤ x) st.2 in
  (distsRet, idsRet).

End ComputePointCloudDistance.

End m545_mapping.

(** ** Odometry.cpp *)

Module o3d_slam.

(** [Time] (time.hpp) is a time point, a count of clock ticks. *)
Abbreviation Time := Z.

(** [Eigen::Matrix4d], row by row; [Transform] ([Eigen::Isometry3d]) is the
    4x4 matrix it wraps. *)
Definition Matrix4d : Type := list (list double).

Abbreviation Transform := Matrix4d.

Inductive IcpObjective := PointToPoint | PointToPlane.

Definition IcpObjective_eqb (a b : IcpObjective) : bool :=
  match a, b with
  | PointToPoint, PointToPoint | PointToPlane, PointToPlane => true
  | _, _ => false
  end.

(** What [icpObjectiveFactory] builds. *)
Inductive TransformationEstimation :=
  | TransformationEstimationPointToPoint (with_scaling : bool)
  | TransformationEstimationPointToPlane.

Record ICPConvergenceCriteria := mkCriteria {
  relative_fitness_ : double;
  relative_rmse_ : double;
  max_iteration_ : Z
}.

Record RegistrationResult := mkResult {
  transformation_ : Matrix4d;
  inlier_rmse_ : double;
  fitness_ : double
}.

(** The parameter structs (Parameters.hpp), with the fields that
    [addRangeScan] reads. *)
Record ScanProcessingParameters := mkScanProcessing {
  voxelSize_ : double;
  downSamplingRatio_ : double
}.

Record IcpParameters := mkIcp {
  icpObjective_ : IcpObjective;
  kNNnormalEstimation_ : Z;
  maxCorrespondenceDistance_ : double;
  maxNumIter_ : Z
}.

Record OdometryToolsParameters := mkToolsParams {
  scanProcessing_ : ScanProcessingParameters;
  scanMatcher_ : IcpParameters;
  minAcceptableFitness_ : double
}.

(** [LidarOdometryTools].  The cropper is an object with a virtual [crop];
    the field holds that method. *)
Record LidarOdometryTools := mkTools {
  params_ : OdometryToolsParameters;
  cropper_ : PointCloud -> PointCloud;
  icpTransform_ : Matrix4d;
  tools_icpObjective_ : TransformationEstimation;
  icpConvergenceCriteria_ : ICPConvergenceCriteria
}.

(** Modelled from the spec: TransformInterpolationBuffer.cpp is not among the
    sources.  The buffer is "an append-structure of Timestamped Poses",
    "[push(timestamp, pose)] appends", "[empty()] / [size()] report buffer
    occupancy". *)
Definition TransformInterpolationBuffer : Type := list (Time * Transform).

Definition push (time : Time) (tf : Transform) (b : TransformInterpolationBuffer)
  : TransformInterpolationBuffer := b ++ [(time, tf)].

Definition size (b : TransformInterpolationBuffer) : nat := length b.

Definition empty (b : TransformInterpolationBuffer) : bool :=
  match b with [] => true | _ => false end.

(** The members of [LidarOdometry] that [addRangeScan] reads or writes. *)
Record LidarOdometry := mkOdometry {
  cloudPrev_ : PointCloud;
  odomToRangeSensorCumulative_ : Transform;
  odomToRangeSensorBuffer_ : TransformInterpolationBuffer;
  lastMeasurementTimestamp_ : Time;
  isMapInitializing_ : bool;
  mapInitializingOdomTools_ : LidarOdometryTools;
  scanToScanOdomTools_ : LidarOdometryTools
}.

(** The library routines behind [addRangeScan]: Open3D's down-sampling,
    normal estimation and ICP, Eigen's 4x4 product and inverse.
    [RandomDownSample] draws from Open3D's random engine, whose state [Rng]
    is threaded through. *)
Class Open3D := {
  Rng : Type;
  VoxelDownSample : PointCloud -> double -> PointCloud;
  RandomDownSample : PointCloud -> double -> Rng -> PointCloud * Rng;
  EstimateNormals : PointCloud -> Z -> PointCloud;
  NormalizeNormals : PointCloud -> PointCloud;
  RegistrationICP :
    PointCloud -> PointCloud -> double -> Matrix4d -> TransformationEstimation ->
    ICPConvergenceCriteria -> RegistrationResult;
  mat_mul : Matrix4d -> Matrix4d -> Matrix4d;
  mat_inverse : Matrix4d -> Matrix4d
}.

Section AddRangeScan.

Context `{Open3D}.

(** The tool set of the current mode (line 49). *)
Definition active_tools (o : LidarOdometry) : LidarOdometryTools :=
  if isMapInitializing_ o then mapInitializingOdomTools_ o
  else scanToScanOdomTools_ o.

(** Lines 50-58: crop, voxelize, random down-sampling and, for the
    point-to-plane objective, normals.  [o3d_slam::voxelize] and
    [o3d_slam::estimateNormals] are declared in open3d_slam/helpers.hpp, which
    is not among the sources: they are taken to be the helpers of these
    names of helpers.cpp (lines 133-139 and 94-97), "voxel-downsample via the
    active tool's voxel size" and "estimate ... normals on the downsampled
    cloud". *)
Definition preprocess (tools : LidarOdometryTools) (cloud : PointCloud) (g : Rng)
  : PointCloud * Rng :=
  let croppedCloud := cropper_ tools cloud in
  let croppedCloud :=
    m545_mapping.voxelize VoxelDownSample
      (voxelSize_ (scanProcessing_ (params_ tools))) croppedCloud in
  let sampled :=
    RandomDownSample croppedCloud
      (downSamplingRatio_ (scanProcessing_ (params_ tools))) g in
  let downSampledCloud :=
    if IcpObjective_eqb (icpObjective_ (scanMatcher_ (params_ tools))) PointToPlane
    then
      NormalizeNormals
        (m545_mapping.estimateNormals EstimateNormals
           (kNNnormalEstimation_ (scanMatcher_ (params_ tools))) sampled.1)
    else sampled.1 in
  (downSampledCloud, sampled.2).

(** Lines 60-62: the scan matching against the reference cloud. *)
Definition register (o : LidarOdometry) (tools : LidarOdometryTools)
    (downSampledCloud : PointCloud) : RegistrationResult :=
  RegistrationICP (cloudPrev_ o) downSampledCloud
    (maxCorrespondenceDistance_ (scanMatcher_ (params_ tools)))
    (icpTransform_ tools) (tools_icpObjective_ tools)
    (icpConvergenceCriteria_ tools).

(** Lines 36-41: the first scan becomes the reference. *)
Definition first_scan (o : LidarOdometry) (cloud : PointCloud) (timestamp : Time)
  : LidarOdometry :=
  mkOdometry cloud (odomToRangeSensorCumulative_ o)
    (push timestamp (odomToRangeSensorCumulative_ o) (odomToRangeSensorBuffer_ o))
    timestamp (isMapInitializing_ o)
    (mapInitializingOdomTools_ o) (scanToScanOdomTools_ o).

(** Lines 76-78: a failed match still moves the reference, unless the
    preprocessed cloud is empty. *)
Definition failed_scan (o : LidarOdometry) (downSampledCloud : PointCloud)
  : LidarOdometry :=
  if negb (IsEmpty downSampledCloud) then
    mkOdometry downSampledCloud (odomToRangeSensorCumulative_ o)
      (odomToRangeSensorBuffer_ o) (lastMeasurementTimestamp_ o)
      (isMapInitializing_ o) (mapInitializingOdomTools_ o) (scanToScanOdomTools_ o)
  else o.

(** Lines 82-89: a successful match. *)
Definition matched_scan (o : LidarOdometry) (downSampledCloud : PointCloud)
    (result : RegistrationResult) (timestamp : Time) : LidarOdometry :=
  let isMapInitializing := if isMapInitializing_ o then false else isMapInitializing_ o in
  let cumulative :=
    mat_mul (odomToRangeSensorCumulative_ o) (mat_inverse (transformation_ result)) in
  mkOdometry downSampledCloud cumulative
    (push timestamp cumulative (odomToRangeSensorBuffer_ o))
    timestamp isMapInitializing
    (mapInitializingOdomTools_ o) (scanToScanOdomTools_ o).

(** [addRangeScan]: the returned flag, the object after the call, and the
    state of the random engine after the call. *)
Definition addRangeScan (o : LidarOdometry) (cloud : PointCloud) (timestamp : Time)
    (g : Rng) : bool * LidarOdometry * Rng :=
  if IsEmpty (cloudPrev_ o) then (true, first_scan o cloud timestamp, g)
  else if timestamp <? lastMeasurementTimestamp_ o then (false, o, g)
  else
    let tools := active_tools o in
    let pre := preprocess tools cloud g in
    let downSampledCloud := pre.1 in
    let result := register o tools downSampledCloud in
    let isOdomOkay :=
      D.gt (fitness_ result) (minAcceptableFitness_ (params_ tools)) in
    if negb isOdomOkay then (isOdomOkay, failed_scan o downSampledCloud, pre.2)
    else (isOdomOkay, matched_scan o downSampledCloud result timestamp, pre.2).

Definition getBuffer (o : LidarOdometry) : TransformInterpolationBuffer :=
  odomToRangeSensorBuffer_ o.

Definition getPreProcessedCloud (o : LidarOdometry) : PointCloud := cloudPrev_ o.

Definition hasProcessedMeasurements (o : LidarOdometry) : bool :=
  negb (empty (odomToRangeSensorBuffer_ o)).

(** A stream of scans fed to [addRangeScan] one after the other: the flags
    returned, in order, and the final state. *)
Fixpoint feed (o : LidarOdometry) (g : Rng) (scans : list (PointCloud * Time))
  : list bool * LidarOdometry * Rng :=
  match scans with
  | [] => ([], o, g)
  | (cloud, timestamp) :: rest =>
    let r := addRangeScan o cloud timestamp g in
    let r' := feed r.1.2 r.2 rest in
    (r.1.1 :: r'.1.1, r'.1.2, r'.2)
  end.

End AddRangeScan.

(** *** addRangeScan over any buffer *)

Section AnyBuffer.

Context `{Open3D}.

(** [TransformInterpolationBuffer::push], left open.  The buffer is "ordered
    by timestamp" and "should assert/validate monotonicity": what it does
    with a pose older than the ones it holds is not written down, so the
    functions below take [push] as it comes. *)
Variable push_ :
  Time -> Transform -> TransformInterpolationBuffer -> TransformInterpolationBuffer.

(** Lines 36-41. *)
Definition first_scan_with (o : LidarOdometry) (cloud : PointCloud)
    (timestamp : Time) : LidarOdometry :=
  mkOdometry cloud (odomToRangeSensorCumulative_ o)
    (push_ timestamp (odomToRangeSensorCumulative_ o) (odomToRangeSensorBuffer_ o))
    timestamp (isMapInitializing_ o)
    (mapInitializingOdomTools_ o) (scanToScanOdomTools_ o).

(** Lines 82-89. *)
Definition matched_scan_with (o : LidarOdometry) (downSampledCloud : PointCloud)
    (result : RegistrationResult) (timestamp : Time) : LidarOdometry :=
  let isMapInitializing := if isMapInitializing_ o then false else isMapInitializing_ o in
  let cumulative :=
    mat_mul (odomToRangeSensorCumulative_ o) (mat_inverse (transformation_ result)) in
  mkOdometry downSampledCloud cumulative
    (push_ timestamp cumulative (odomToRangeSensorBuffer_ o))
    timestamp isMapInitializing
    (mapInitializingOdomTools_ o) (scanToScanOdomTools_ o).

(** [addRangeScan], lines 35-91, with every [odomToRangeSensorBuffer_.push]
    a call of [push_]. *)
Definition addRangeScan_with (o : LidarOdometry) (cloud : PointCloud)
    (timestamp : Time) (g : Rng) : bool * LidarOdometry * Rng :=
  if IsEmpty (cloudPrev_ o) then (true, first_scan_with o cloud timestamp, g)
  else if timestamp <? lastMeasurementTimestamp_ o then (false, o, g)
  else
    let tools := active_tools o in
    let pre := preprocess tools cloud g in
    let downSampledCloud := pre.1 in
    let result := register o tools downSampledCloud in
    let isOdomOkay :=
      D.gt (fitness_ result) (minAcceptableFitness_ (params_ tools)) in
    if negb isOdomOkay then (isOdomOkay, failed_scan o downSampledCloud, pre.2)
    else (isOdomOkay, matched_scan_with o downSampledCloud result timestamp, pre.2).

(** A stream of scans, as [feed]. *)
Fixpoint feed_with (o : LidarOdometry) (g : Rng) (scans : list (PointCloud * Time))
  : list bool * LidarOdometry * Rng :=
  match scans with
  | [] => ([], o, g)
  | (cloud, timestamp) :: rest =>
    let r := addRangeScan_with o cloud timestamp g in
    let r' := feed_with r.1.2 r.2 rest in
    (r.1.1 :: r'.1.1, r'.1.2, r'.2)
  end.

End AnyBuffer.

(** *** Construction and configuration *)

(** [icpObjectiveFactory] (helpers.cpp).  Its [default] branch throws; no
    enumerator reaches it. *)
Definition icpObjectiveFactory (obj : IcpObjective) : TransformationEstimation :=
  match obj with
  | PointToPoint => TransformationEstimationPointToPoint false
  | PointToPlane => TransformationEstimationPointToPlane
  end.

(** [OdometryParameters] (Parameters.hpp), with the fields that
    [LidarOdometry::setParameters] reads. *)
Record OdometryParameters := mkOdometryParams {
  odometry_isMapInitializing_ : bool;
  scanToScanToolsParams_ : OdometryToolsParameters;
  mapInitializingToolsParams_ : OdometryToolsParameters
}.

Definition set_scanToScanOdomTools (t : LidarOdometryTools) (o : LidarOdometry)
  : LidarOdometry :=
  mkOdometry (cloudPrev_ o) (odomToRangeSensorCumulative_ o)
    (odomToRangeSensorBuffer_ o) (lastMeasurementTimestamp_ o)
    (isMapInitializing_ o) (mapInitializingOdomTools_ o) t.

Definition set_mapInitializingOdomTools (t : LidarOdometryTools) (o : LidarOdometry)
  : LidarOdometry :=
  mkOdometry (cloudPrev_ o) (odomToRangeSensorCumulative_ o)
    (odomToRangeSensorBuffer_ o) (lastMeasurementTimestamp_ o)
    (isMapInitializing_ o) t (scanToScanOdomTools_ o).

Definition set_isMapInitializing (b : bool) (o : LidarOdometry) : LidarOdometry :=
  mkOdometry (cloudPrev_ o) (odomToRangeSensorCumulative_ o)
    (odomToRangeSensorBuffer_ o) (lastMeasurementTimestamp_ o)
    b (mapInitializingOdomTools_ o) (scanToScanOdomTools_ o).

(** [LidarOdometry::setInitialTransform] (lines 116-118). *)
Definition setInitialTransform (initialTransform : Matrix4d) (o : LidarOdometry)
  : LidarOdometry :=
  let t := mapInitializingOdomTools_ o in
  set_mapInitializingOdomTools
    (mkTools (params_ t) (cropper_ t) initialTransform (tools_icpObjective_ t)
       (icpConvergenceCriteria_ t)) o.

Section Configuration.

(** The cropper parameters are a member of the scan processing parameters
    that the record above leaves out; [scanProcessing_cropper_] reads it.
    [croppingVolumeFactory] (croppers, not among the sources) builds the
    cropper or throws; [CroppingVolume_new] is the [crop] of a plain
    [CroppingVolume]. *)
Variable CropperParameters : Type.
Variable scanProcessing_cropper_ : ScanProcessingParameters -> CropperParameters.
Variable croppingVolumeFactory :
  CropperParameters -> m545_mapping.exception + (PointCloud -> PointCloud).
Variable CroppingVolume_new : PointCloud -> PointCloud.

(** [LidarOdometryTools::setParameters] (lines 18-26): the exception thrown,
    if any, and the tools as the call leaves them. *)
Definition LidarOdometryTools_setParameters (p : OdometryToolsParameters)
    (t : LidarOdometryTools) : option m545_mapping.exception * LidarOdometryTools :=
  let criteria :=
    mkCriteria (relative_fitness_ (icpConvergenceCriteria_ t))
      (relative_rmse_ (icpConvergenceCriteria_ t)) (maxNumIter_ (scanMatcher_ p)) in
  let objective := icpObjectiveFactory (icpObjective_ (scanMatcher_ p)) in
  match croppingVolumeFactory (scanProcessing_cropper_ (scanProcessing_ p)) with
  | inl e => (Some e, mkTools p (cropper_ t) (icpTransform_ t) objective criteria)
  | inr cropper => (None, mkTools p cropper (icpTransform_ t) objective criteria)
  end.

(** [LidarOdometry::LidarOdometry()] (lines 28-33), applied to the object
    with its members initialised as the class declares them. *)
Definition LidarOdometry_new (o : LidarOdometry) : LidarOdometry :=
  let init t :=
    mkTools (params_ t) CroppingVolume_new (icpTransform_ t)
      (icpObjectiveFactory PointToPlane) (icpConvergenceCriteria_ t) in
  set_mapInitializingOdomTools (init (mapInitializingOdomTools_ o))
    (set_scanToScanOdomTools (init (scanToScanOdomTools_ o)) o).

(** [LidarOdometry::setParameters] (lines 108-114). *)
Definition setParameters (p : OdometryParameters) (o : LidarOdometry)
  : option m545_mapping.exception * LidarOdometry :=
  let o := set_isMapInitializing (odometry_isMapInitializing_ p) o in
  let r := LidarOdometryTools_setParameters (scanToScanToolsParams_ p)
             (scanToScanOdomTools_ o) in
  let o := set_scanToScanOdomTools r.2 o in
  match r.1 with
  | Some e => (Some e, o)
  | None =>
    if isMapInitializing_ o then
      let r := LidarOdometryTools_setParameters (mapInitializingToolsParams_ p)
                 (mapInitializingOdomTools_ o) in
      (r.1, set_mapInitializingOdomTools r.2 o)
    else (None, o)
  end.

End Configuration.

(** The tools run the estimator and the iteration cap of their parameters. *)
Definition tools_follow_params (t : LidarOdometryTools) : Prop :=
  tools_icpObjective_ t = icpObjectiveFactory (icpObjective_ (scanMatcher_ (params_ t)))
  ∧ max_iteration_ (icpConvergenceCriteria_ t) = maxNumIter_ (scanMatcher_ (params_ t)).

(** The poses pushed so far tell the state: the newest one carries the last
    processed timestamp and the cumulative transform. *)
Definition newest_pose_is_current (o : LidarOdometry) : Prop :=
  odomToRangeSensorBuffer_ o = []
  ∨ last (odomToRangeSensorBuffer_ o)
    = Some (lastMeasurementTimestamp_ o, odomToRangeSensorCumulative_ o).

(** The timestamps of the poses, oldest first. *)
Definition pose_times (b : TransformInterpolationBuffer) : list Time := b.*1.

End o3d_slam.

(** ** Executable instances of the parameters *)

Module Voxel.

(** [int(floor(x))] for a finite [x] whose floor fits. *)
Definition floor_int (x : double) : Z :=
  match Prim2SF x with
  | S754_finite s m e =>
    let v := if s then Z.neg m else Z.pos m in
    if 0 <=? e then v * 2 ^ e else v / 2 ^ (- e)
  | _ => 0
  end.

Definition fmin (a b : double) : double := if D.lt b a then b else a.

Definition cwiseMin (a b : Vector3d) : Vector3d :=
  Vec3 (fmin (vx a) (vx b)) (fmin (vy a) (vy b)) (fmin (vz a) (vz b)).

Definition cwiseMax (a b : Vector3d) : Vector3d :=
  Vec3 (fmax (vx a) (vx b)) (fmax (vy a) (vy b)) (fmax (vz a) (vz b)).

(** The corners of the bounding box of a cloud (zero for an empty cloud). *)
Definition GetMinBound (cloud : PointCloud) : Vector3d :=
  match points_ cloud with
  | [] => Vzero
  | p :: ps => fold_left cwiseMin ps p
  end.

Definition GetMaxBound (cloud : PointCloud) : Vector3d :=
  match points_ cloud with
  | [] => Vzero
  | p :: ps => fold_left cwiseMax ps p
  end.

(** Modelled from the spec: Voxel.hpp is not among the sources.  The grid is
    "anchored at the cloud's bounding box minimum". *)
Definition computeVoxelBounds (cloud : PointCloud) (voxelSize : Vector3d)
  : Vector3d * Vector3d :=
  (GetMinBound cloud, GetMaxBound cloud).

(** Modelled from the spec: Voxel.hpp is not among the sources.  A position
    maps to its voxel index by "integer-floor quantization by voxel size". *)
Definition getVoxelIdx (p voxelSize minBound maxBound : Vector3d) : Vector3i :=
  let d := vsub p minBound in
  (floor_int (D.div (vx d) (vx voxelSize)),
   floor_int (D.div (vy d) (vy voxelSize)),
   floor_int (D.div (vz d) (vz voxelSize))).

(** One iteration order of the map. *)
Definition traverse (m : m545_mapping.VoxelMap)
  : list (Vector3i * m545_mapping.AccumulatedPoint) := map_to_list m.

(** [voxelizeAroundPosition] with these. *)
Definition voxelizeAroundPosition :=
  m545_mapping.voxelizeAroundPosition getVoxelIdx computeVoxelBounds traverse.

(** Two points at the same place, the second with an invalid normal, and a
    box that holds them. *)
Definition twin_cloud : PointCloud :=
  mkPointCloud [Vec3 0 0 0; Vec3 0 0 0] [Vec3 0 0 1; Vec3 nan 0 0] [].

Definition unit_box : AxisAlignedBoundingBox :=
  mkBox (Vec3 (-1) (-1) (-1)) (Vec3 1 1 1).

(** Three points on a line, the last one outside [unit_box]. *)
Definition line_cloud : PointCloud :=
  mkPointCloud [Vec3 0 0 0; Vec3 0.25 0 0; Vec3 4 0 0]
               [Vec3 0 0 1; Vec3 0 1 0; Vec3 1 0 0] [].

(** A box away from [line_cloud]. *)
Definition far_box : AxisAlignedBoundingBox :=
  mkBox (Vec3 10 10 10) (Vec3 11 11 11).

(** The map of voxels, visited the other way round. *)
Definition traverse_backwards (m : m545_mapping.VoxelMap)
  : list (Vector3i * m545_mapping.AccumulatedPoint) := reverse (map_to_list m).

(** A search that can be run: the squared distance from the query to the
    first point of the cloud; on an empty cloud it fails, returning -1 and
    leaving the output vectors as they were passed in. *)
Definition firstPointSearch (cloud : PointCloud) (query : Vector3d) (knn : Z)
    (ids : list Z) (dists : list double) : Z * list Z * list double :=
  match points_ cloud with
  | [] => (-1, ids, dists)
  | p :: _ =>
    let d := vsub query p in
    (1, [0],
     [D.add (D.add (D.mul (vx d) (vx d)) (D.mul (vy d) (vy d)))
            (D.mul (vz d) (vz d))])
  end.

(** A search that finds the first point of the cloud when the query is no
    further than [radius] from it along any axis, and otherwise returns 0,
    no neighbour, leaving the output vectors. *)
Definition nearSearch (radius : double) (cloud : PointCloud) (query : Vector3d)
    (knn : Z) (ids : list Z) (dists : list double) : Z * list Z * list double :=
  match points_ cloud with
  | [] => (-1, ids, dists)
  | p :: _ =>
    let d := vsub query p in
    if D.le (maxCoeff (Vec3 (D.mul (vx d) (vx d)) (D.mul (vy d) (vy d))
                            (D.mul (vz d) (vz d))))
            (D.mul radius radius)
    then firstPointSearch cloud query knn ids dists
    else (0, ids, dists)
  end.

End Voxel.

Module Demo.

Import o3d_slam.

Definition entry (a : Matrix4d) (i j : nat) : double :=
  nth j (nth i a []) D.zero.

Definition Identity : Matrix4d :=
  [[1; 0; 0; 0]; [0; 1; 0; 0]; [0; 0; 1; 0]; [0; 0; 0; 1]]%float.

(** The 4x4 product, each coefficient summed from left to right. *)
Definition product (a b : Matrix4d) : Matrix4d :=
  (λ i, (λ j, fold_left (λ s k, D.add s (D.mul (entry a i k) (entry b k j)))
                [0; 1; 2; 3]%nat D.zero) <$> [0; 1; 2; 3]%nat)
  <$> [0; 1; 2; 3]%nat.

(** The inverse of a rigid transform: the transposed rotation, and the
    translation rotated back and negated. *)
Definition rigid_inverse (a : Matrix4d) : Matrix4d :=
  ((λ i, ((λ j, entry a j i) <$> [0; 1; 2]%nat)
         ++ [D.sub D.zero
               (fold_left (λ s k, D.add s (D.mul (entry a k i) (entry a k 3)))
                  [0; 1; 2]%nat D.zero)])
   <$> [0; 1; 2]%nat) ++ [[0; 0; 0; 1]%float].

(** A matcher that does no matching: it reports the seed transform, and a
    fitness of one when the target has as many points as the reference. *)
Definition sameSizeICP (source target : PointCloud) (d : double) (init : Matrix4d)
    (e : TransformationEstimation) (c : ICPConvergenceCriteria)
  : RegistrationResult :=
  mkResult init D.zero
    (if (length (points_ source) =? length (points_ target))%nat
     then 1%float else 0%float).

(** A stand-in for the library that can be run: down-sampling keeps every
    point (the engine state counts the draws), normals are left as they are. *)
Instance backend : Open3D := {|
  Rng := Z;
  VoxelDownSample := λ c _, c;
  RandomDownSample := λ c _ g, (c, g + 1);
  EstimateNormals := λ c _, c;
  NormalizeNormals := λ c, c;
  RegistrationICP := sameSizeICP;
  mat_mul := product;
  mat_inverse := rigid_inverse
|}.

Definition tools (minAcceptableFitness : double) : LidarOdometryTools :=
  mkTools
    (mkToolsParams (mkScanProcessing 0%float 1%float)
                   (mkIcp PointToPoint 5 1%float 50) minAcceptableFitness)
    (λ c, c) Identity (TransformationEstimationPointToPoint false)
    (mkCriteria 0.0009765625%float 0.0009765625%float 50).

(** An odometry that has seen no scan, in map-initializing mode. *)
Definition fresh (minAcceptableFitness : double) : LidarOdometry :=
  mkOdometry emptyCloud Identity [] 0 true
    (tools minAcceptableFitness) (tools minAcceptableFitness).

Definition p000 : Vector3d := Vec3 0 0 0.
Definition p100 : Vector3d := Vec3 1 0 0.
Definition p010 : Vector3d := Vec3 0 1 0.

Definition one_point : PointCloud := mkPointCloud [p000] [] [].
Definition two_points : PointCloud := mkPointCloud [p000; p100] [] [].

(** The odometry after its first scan, [two_points] at time 1. *)
Definition started (minAcceptableFitness : double) : LidarOdometry :=
  (addRangeScan (fresh minAcceptableFitness) two_points 1 0).1.2.

(** The odometry in steady state: after [two_points] at time 1 and again at
    time 2. *)
Definition tracking : LidarOdometry :=
  (addRangeScan (started 0.5) two_points 2 0).1.2.


(** A configuration: no cropper parameters, a factory that builds the
    cropper that keeps every point. *)
Definition keepAllFactory (par : unit)
  : m545_mapping.exception + (PointCloud -> PointCloud) := inr (λ c, c).

Definition parameters (isMapInitializing : bool) : OdometryParameters :=
  mkOdometryParams isMapInitializing
    (mkToolsParams (mkScanProcessing 0%float 1%float)
                   (mkIcp PointToPoint 5 1%float 30) 0.5%float)
    (mkToolsParams (mkScanProcessing 0%float 1%float)
                   (mkIcp PointToPlane 10 2%float 100) 0.25%float).

(** [LidarOdometry()] followed by [setParameters]. *)
Definition configured (isMapInitializing : bool) : LidarOdometry :=
  (setParameters unit (λ _, tt) keepAllFactory (parameters isMapInitializing)
     (LidarOdometry_new (λ c, c) (fresh 0.5))).2.

End Demo.
(** * Properties *)

(** ** Comparisons of doubles *)

Section Doubles.

Lemma SFcompare_refl_not_Lt x : SFcompare x x ≠ Some Lt.
Proof.
  destruct x as [s| s| |s m e]; simpl; try destruct s; try discriminate.
  - rewrite Z.compare_refl, Pos.compare_cont_refl. discriminate.
  - rewrite Z.compare_refl, Pos.compare_cont_refl. discriminate.
Qed.

(** No double is greater than itself. *)
Lemma gt_irrefl (x : double) : D.gt x x = false.
Proof.
  unfold D.gt. rewrite FloatAxioms.ltb_spec. unfold SFltb.
  pose proof (SFcompare_refl_not_Lt (Prim2SF x)) as Hx.
  destruct (SFcompare (Prim2SF x) (Prim2SF x)) as [[]|]; congruence.
Qed.

Lemma SFcompare_Eq_sym x y : SFcompare x y = Some Eq → SFcompare y x = Some Eq.
Proof.
  destruct x as [s| s| |s m e], y as [s'| s'| |s' m' e']; simpl;
    try destruct s; try destruct s'; try discriminate; try done.
  - destruct (Z.compare_spec e e') as [->| |]; try discriminate.
    rewrite Z.compare_refl. fold (Pos.compare m m'). fold (Pos.compare m' m).
    destruct (Pos.compare_spec m m') as [->| |]; try discriminate.
    by rewrite Pos.compare_refl.
  - destruct (Z.compare_spec e e') as [->| |]; try discriminate.
    rewrite Z.compare_refl. fold (Pos.compare m m'). fold (Pos.compare m' m).
    destruct (Pos.compare_spec m m') as [->| |]; try discriminate.
    by rewrite Pos.compare_refl.
Qed.

(** Doubles that compare equal (in particular [0.0] and [-0.0]) are not
    greater than one another. *)
Lemma eq_not_gt (x y : double) : D.eq x y = true → D.gt x y = false.
Proof.
  unfold D.eq, D.gt. rewrite FloatAxioms.eqb_spec, FloatAxioms.ltb_spec. unfold SFeqb, SFltb.
  destruct (SFcompare (Prim2SF x) (Prim2SF y)) as [[]|] eqn:E; try discriminate.
  intros _. by rewrite (SFcompare_Eq_sym _ _ E).
Qed.

(** A positive double is not [<= 0]. *)
Lemma pos_not_le_zero (x : double) : D.lt D.zero x = true → D.le x D.zero = false.
Proof.
  unfold D.lt, D.le, D.zero. rewrite FloatAxioms.ltb_spec, FloatAxioms.leb_spec. unfold SFltb, SFleb.
  change (Prim2SF 0) with (S754_zero false).
  destruct (Prim2SF x) as [s| s| |s m e]; simpl; try destruct s; done.
Qed.

(** A double that is not NaN is [<=] itself. *)
Lemma le_refl (x : double) : D.isnan x = false → D.le x x = true.
Proof.
  unfold D.isnan, D.le, is_nan.
  rewrite FloatAxioms.eqb_spec, FloatAxioms.leb_spec. unfold SFeqb, SFleb.
  by destruct (SFcompare (Prim2SF x) (Prim2SF x)) as [[]|].
Qed.

End Doubles.

(** ** The loops of [voxelizeAroundPosition] *)

Section VoxelLoops.

Import m545_mapping.

Variable getVoxelIdx : Vector3d -> Vector3d -> Vector3d -> Vector3d -> Vector3i.
Variable bbox : AxisAlignedBoundingBox.
Variable cloud : PointCloud.
Variables voxelSize voxelMinBound voxelMaxBound : Vector3d.

Local Abbreviation scan :=
  (scan_point getVoxelIdx bbox cloud voxelSize voxelMinBound voxelMaxBound).
Local Abbreviation members_of :=
  (members getVoxelIdx bbox cloud voxelSize voxelMinBound voxelMaxBound).
Local Abbreviation add_all := (fold_left (λ a i, AddPoint a cloud i)).

(** The first loop leaves in the map, for each voxel, the accumulator that
    has taken the members of the voxel in input order. *)
Lemma scan_fold_lookup (l : list nat) (st : VoxelMap * PointCloud) (k : Vector3i) :
  (fold_left scan l st).1 !! k =
    match members_of k l with
    | [] => st.1 !! k
    | ixs => Some (add_all ixs (default AccumulatedPoint_new (st.1 !! k)))
    end.
Proof.
  revert st. induction l as [|i l IH]; intros st; [done|].
  cbn [fold_left]. rewrite IH. unfold members, scan_point.
  destruct (isInside bbox (at_ (points_ cloud) i)) eqn:Hin; cbn [fst snd].
  - destruct (decide (getVoxelIdx (at_ (points_ cloud) i) voxelSize voxelMinBound
                        voxelMaxBound = k)) as [Hk|Hk].
    + rewrite filter_cons_True by done. unfold accumulate.
      rewrite Hk, lookup_insert_eq. cbn [default fold_left].
      by destruct (filter _ l).
    + rewrite filter_cons_False by (intros [? ?]; congruence). unfold accumulate.
      by rewrite lookup_insert_ne.
  - rewrite filter_cons_False by (intros [? ?]; congruence). done.
Qed.

(** It appends the points outside the box to the output, in input order. *)
Lemma scan_fold_output (l : list nat) (st : VoxelMap * PointCloud) :
  (fold_left scan l st).2 =
    fold_left (λ out i, push_point (HasNormals cloud) (HasColors cloud) out
                 (at_ (points_ cloud) i) (at_ (normals_ cloud) i)
                 (at_ (colors_ cloud) i))
      (outside bbox cloud l) st.2.
Proof.
  revert st. induction l as [|i l IH]; intros st; [done|].
  cbn [fold_left]. rewrite IH. unfold outside, scan_point.
  destruct (isInside bbox (at_ (points_ cloud) i)) eqn:Hin; cbn [fst snd].
  - by rewrite filter_cons_False by congruence.
  - by rewrite filter_cons_True by done.
Qed.

Lemma push_fold (hn hc : bool) (l : list nat) (out : PointCloud) :
  fold_left (λ out i, push_point hn hc out (at_ (points_ cloud) i)
               (at_ (normals_ cloud) i) (at_ (colors_ cloud) i)) l out =
  mkPointCloud (points_ out ++ (at_ (points_ cloud) <$> l))
    (if hn then normals_ out ++ (at_ (normals_ cloud) <$> l) else normals_ out)
    (if hc then colors_ out ++ (at_ (colors_ cloud) <$> l) else colors_ out).
Proof.
  revert out. induction l as [|i l IH]; intros out.
  - destruct out, hn, hc; cbn; by rewrite ?app_nil_r.
  - cbn [fold_left]. rewrite IH. unfold push_point. cbn.
    destruct hn, hc; by rewrite <- ?app_assoc.
Qed.

Lemma emit_fold (hn hc : bool) (l : list (Vector3i * AccumulatedPoint))
    (out : PointCloud) :
  fold_left (emit_voxel hn hc) l out =
  mkPointCloud (points_ out ++ (GetAveragePoint <$> l.*2))
    (if hn then normals_ out ++ (GetAverageNormal <$> l.*2) else normals_ out)
    (if hc then colors_ out ++ (GetAverageColor <$> l.*2) else colors_ out).
Proof.
  revert out. induction l as [|i l IH]; intros out.
  - destruct out, hn, hc; cbn; by rewrite ?app_nil_r.
  - cbn [fold_left]. rewrite IH. unfold emit_voxel, push_point. cbn.
    destruct hn, hc; by rewrite <- ?app_assoc.
Qed.

(** What an accumulator holds after it has taken the points [ixs]. *)
Lemma add_all_num (ixs : list nat) (a : AccumulatedPoint) :
  num_of_points_ (add_all ixs a) = num_of_points_ a + Z.of_nat (length ixs).
Proof.
  revert a. induction ixs as [|i ixs IH]; intros a; cbn [fold_left length].
  - lia.
  - rewrite IH. cbn. lia.
Qed.

Lemma add_all_point (ixs : list nat) (a : AccumulatedPoint) :
  point_ (add_all ixs a) = fold_left vadd (at_ (points_ cloud) <$> ixs) (point_ a).
Proof.
  revert a. induction ixs as [|i ixs IH]; intros a; [done|].
  cbn [fold_left fmap list_fmap]. by rewrite IH.
Qed.

Lemma add_all_normal (ixs : list nat) (a : AccumulatedPoint) :
  normal_ (add_all ixs a) =
    if HasNormals cloud then fold_left vadd (valid_normals cloud ixs) (normal_ a)
    else normal_ a.
Proof.
  revert a. induction ixs as [|i ixs IH]; intros a.
  - cbn. by destruct (HasNormals cloud).
  - cbn [fold_left]. rewrite IH. unfold valid_normals. cbn [fmap list_fmap].
    unfold AddPoint. cbn [normal_].
    destruct (HasNormals cloud); [|done].
    destruct (normal_is_valid (at_ (normals_ cloud) i)) eqn:Hv.
    + by rewrite filter_cons_True by done.
    + by rewrite filter_cons_False by congruence.
Qed.

Lemma add_all_color (ixs : list nat) (a : AccumulatedPoint) :
  color_ (add_all ixs a) =
    if HasColors cloud then fold_left vadd (at_ (colors_ cloud) <$> ixs) (color_ a)
    else color_ a.
Proof.
  revert a. induction ixs as [|i ixs IH]; intros a.
  - cbn. by destruct (HasColors cloud).
  - cbn [fold_left fmap list_fmap]. rewrite IH. unfold AddPoint. cbn [color_].
    by destruct (HasColors cloud).
Qed.



Lemma fmap_snd_fst {A B C} (f : B → C) (g : A → C) (l : list (A * B)) :
  (∀ x, x ∈ l → f x.2 = g x.1) → f <$> l.*2 = g <$> l.*1.
Proof.
  induction l as [|x l IH]; intros Hl; [done|]. cbn.
  rewrite (Hl x) by left. f_equal. apply IH. intros y Hy. apply Hl. by right.
Qed.

(** Reading a vector through the indices that pass a test is filtering it. *)
Lemma at_filter_seq_zip (P : Vector3d → Prop) `{!∀ p, Decision (P p)}
    (l l2 pre pre2 : list Vector3d) :
  length pre = length pre2 → length l = length l2 →
  at_ (pre2 ++ l2) <$> filter (λ i, P (at_ (pre ++ l) i)) (seq (length pre) (length l))
  = (filter (λ pa, P pa.1) (zip l l2)).*2.
Proof.
  revert l2 pre pre2. induction l as [|x l IH]; intros [|y l2] pre pre2 Hpre Hl;
    try done.
  cbn [length seq zip zip_with]. injection Hl as Hl.
  assert (Hx : at_ (pre ++ x :: l) (length pre) = x) by apply nth_middle.
  assert (Hy : at_ (pre2 ++ y :: l2) (length pre) = y)
    by (rewrite Hpre; apply nth_middle).
  assert (Hrest :
    at_ (pre2 ++ y :: l2) <$>
      filter (λ i, P (at_ (pre ++ x :: l) i)) (seq (S (length pre)) (length l))
    = (filter (λ pa, P pa.1) (zip l l2)).*2).
  { rewrite (cons_middle x pre l), (cons_middle y pre2 l2), !app_assoc.
    replace (S (length pre)) with (length (pre ++ [x]))
      by (rewrite length_app; cbn; lia).
    apply IH; [|done]. rewrite !length_app. cbn. lia. }
  destruct (decide (P x)) as [HP|HP].
  - rewrite filter_cons_True by by rewrite Hx.
    rewrite (filter_cons_True (λ pa, P pa.1)) by done.
    cbn [fmap list_fmap snd]. by rewrite Hy, Hrest.
  - rewrite filter_cons_False by by rewrite Hx.
    by rewrite (filter_cons_False (λ pa, P pa.1)) by done.
Qed.

Lemma filter_zip_diag (P : Vector3d → Prop) `{!∀ p, Decision (P p)}
    (l : list Vector3d) :
  (filter (λ pa, P pa.1) (zip l l)).*2 = filter P l.
Proof.
  induction l as [|x l IH]; [done|]. cbn [zip zip_with].
  destruct (decide (P x)) as [HP|HP].
  - rewrite (filter_cons_True (λ pa, P pa.1)) by done.
    rewrite filter_cons_True by done. cbn. by rewrite IH.
  - rewrite (filter_cons_False (λ pa, P pa.1)) by done.
    by rewrite filter_cons_False by done.
Qed.

Lemma outside_points_by_index :
  at_ (points_ cloud) <$> outside bbox cloud (seq 0 (length (points_ cloud)))
  = outside_points bbox cloud.
Proof.
  unfold outside, outside_points.
  rewrite <- (filter_zip_diag (λ p, isInside bbox p = false)).
  exact (at_filter_seq_zip (λ p, isInside bbox p = false)
           (points_ cloud) (points_ cloud) [] [] eq_refl eq_refl).
Qed.

Lemma outside_attributes_by_index (attributes : list Vector3d) :
  length attributes = length (points_ cloud) →
  at_ attributes <$> outside bbox cloud (seq 0 (length (points_ cloud)))
  = outside_attributes bbox (points_ cloud) attributes.
Proof.
  intros Hlen. unfold outside, outside_attributes.
  exact (at_filter_seq_zip (λ p, isInside bbox p = false)
           (points_ cloud) attributes [] [] eq_refl (eq_sym Hlen)).
Qed.

(** The loop counter reaches every point of a cloud whose size is an [int]. *)
Lemma scan_indices_all :
  Z.of_nat (length (points_ cloud)) ≤ INT_MAX →
  scan_indices cloud = seq 0 (length (points_ cloud)).
Proof.
  intros Hlen. unfold scan_indices, to_int, INT_MAX in *.
  rewrite Z.mod_small by lia. f_equal. lia.
Qed.

(** The averages an accumulator returns after it has taken the points [ixs]. *)
Lemma GetAveragePoint_add_all (ixs : list nat) :
  GetAveragePoint (add_all ixs AccumulatedPoint_new) = mean_point cloud ixs.
Proof.
  unfold GetAveragePoint, mean_point, vsum.
  by rewrite add_all_point, add_all_num.
Qed.

Lemma GetAverageNormal_add_all (ixs : list nat) :
  HasNormals cloud = true →
  GetAverageNormal (add_all ixs AccumulatedPoint_new)
  = summed_normal_over_points cloud ixs.
Proof.
  intros Hn. unfold GetAverageNormal, summed_normal_over_points, vsum.
  by rewrite add_all_normal, add_all_num, Hn.
Qed.

Lemma GetAverageColor_add_all (ixs : list nat) :
  HasColors cloud = true →
  GetAverageColor (add_all ixs AccumulatedPoint_new) = mean_color cloud ixs.
Proof.
  intros Hc. unfold GetAverageColor, mean_color, vsum.
  by rewrite add_all_color, add_all_num, Hc.
Qed.

End VoxelLoops.

(** ** The result of [voxelizeAroundPosition] *)

Section VoxelizeSpec.

Import m545_mapping.

Variable getVoxelIdx : Vector3d -> Vector3d -> Vector3d -> Vector3d -> Vector3i.
Variable computeVoxelBounds : PointCloud -> Vector3d -> Vector3d * Vector3d.
Variable traverse : VoxelMap -> list (Vector3i * AccumulatedPoint).

(** The iteration over the map visits each of its entries once. *)
Hypothesis traverse_enumerates : ∀ m, traverse m ≡ₚ map_to_list m.

Local Abbreviation voxelizeAP :=
  (voxelizeAroundPosition getVoxelIdx computeVoxelBounds traverse).
Local Abbreviation members_in := (voxel_members getVoxelIdx computeVoxelBounds).
Local Abbreviation bounds := (bounds_of computeVoxelBounds).

Lemma voxelizeAroundPosition_carves (voxel_size : double)
    (bbox : AxisAlignedBoundingBox) (cloud : PointCloud) :
  D.le voxel_size D.zero = false →
  too_small voxel_size (bounds voxel_size cloud).1 (bounds voxel_size cloud).2 = false →
  ∃ keys : list Vector3i,
    NoDup keys
    ∧ (∀ k, k ∈ keys ↔ members_in voxel_size bbox cloud k ≠ [])
    ∧ voxelizeAP voxel_size bbox cloud
      = inr (carved_cloud getVoxelIdx computeVoxelBounds voxel_size bbox cloud keys).
Proof.
  intros Hpos Hfit. unfold voxelizeAroundPosition, bounds_of in *.
  rewrite Hpos, Hfit.
  set (vs := Vec3 voxel_size voxel_size voxel_size).
  set (st := fold_left (scan_point _ _ _ _ _ _) _ _).
  assert (Hlook : ∀ k, st.1 !! k =
            match members_in voxel_size bbox cloud k with
            | [] => None
            | ixs => Some (fold_left (λ a i, AddPoint a cloud i) ixs AccumulatedPoint_new)
            end).
  { intros k. unfold st. rewrite scan_fold_lookup. cbn [fst].
    rewrite lookup_empty. done. }
  exists (traverse st.1).*1. split; [|split].
  - rewrite (traverse_enumerates st.1). apply NoDup_fst_map_to_list.
  - intros k. rewrite (traverse_enumerates st.1).
    rewrite list_elem_of_fmap. split.
    + intros [[k' a] [-> Hka]]. apply elem_of_map_to_list in Hka.
      cbn in *. rewrite Hlook in Hka. by destruct (members_in _ _ _ _).
    + intros Hne. specialize (Hlook k).
      destruct (members_in _ _ _ _) as [|i ixs] eqn:E; [done|].
      eexists (k, _). split; [done|]. by apply elem_of_map_to_list.
  - assert (Hout : st.2 =
      mkPointCloud (at_ (points_ cloud) <$> outside bbox cloud (scan_indices cloud))
        (if HasNormals cloud
         then at_ (normals_ cloud) <$> outside bbox cloud (scan_indices cloud) else [])
        (if HasColors cloud
         then at_ (colors_ cloud) <$> outside bbox cloud (scan_indices cloud) else [])).
    { unfold st. by rewrite scan_fold_output, push_fold. }
    f_equal. rewrite emit_fold, Hout. cbn [points_ normals_ colors_].
    unfold carved_cloud.
    assert (Hacc : ∀ x, x ∈ traverse st.1 →
              x.2 = fold_left (λ a i, AddPoint a cloud i)
                      (members_in voxel_size bbox cloud x.1) AccumulatedPoint_new).
    { intros [k a] Hka. rewrite (traverse_enumerates st.1) in Hka.
      apply elem_of_map_to_list in Hka. rewrite Hlook in Hka. cbn.
      destruct (members_in _ _ _ _); congruence. }
    f_equal.
    + f_equal. apply fmap_snd_fst. intros x Hx. by rewrite (Hacc x Hx) at 1.
    + destruct (HasNormals cloud); [|done].
      f_equal. apply fmap_snd_fst. intros x Hx. by rewrite (Hacc x Hx) at 1.
    + destruct (HasColors cloud); [|done].
      f_equal. apply fmap_snd_fst. intros x Hx. by rewrite (Hacc x Hx) at 1.
Qed.


Local Abbreviation voxel_of cloud voxel_size p :=
  (getVoxelIdx p (Vec3 voxel_size voxel_size voxel_size)
     (bounds voxel_size cloud).1 (bounds voxel_size cloud).2).

(** [in_voxel] holds the in-box points of the voxel, nothing else. *)
Lemma elem_of_in_voxel (voxel_size : double) (bbox : AxisAlignedBoundingBox)
    (cloud : PointCloud) (k : Vector3i) (i : nat) :
  i ∈ in_voxel getVoxelIdx computeVoxelBounds voxel_size bbox cloud k
  ↔ (i < length (points_ cloud))%nat
    ∧ isInside bbox (at_ (points_ cloud) i) = true
    ∧ voxel_of cloud voxel_size (at_ (points_ cloud) i) = k.
Proof.
  unfold in_voxel, members. rewrite list_elem_of_filter, elem_of_seq.
  intuition lia.
Qed.

(** The box includes its bounds: its corners are inside, when they are
    ordered and free of NaN. *)
Lemma isInside_corners (bbox : AxisAlignedBoundingBox) :
  normal_is_valid (min_bound_ bbox) = true →
  normal_is_valid (max_bound_ bbox) = true →
  D.le (vx (min_bound_ bbox)) (vx (max_bound_ bbox)) = true →
  D.le (vy (min_bound_ bbox)) (vy (max_bound_ bbox)) = true →
  D.le (vz (min_bound_ bbox)) (vz (max_bound_ bbox)) = true →
  isInside bbox (min_bound_ bbox) = true ∧ isInside bbox (max_bound_ bbox) = true.
Proof.
  unfold normal_is_valid, isInside, D.ge.
  destruct (D.isnan (vx (min_bound_ bbox))) eqn:N1; [done|].
  destruct (D.isnan (vy (min_bound_ bbox))) eqn:N2; [done|].
  destruct (D.isnan (vz (min_bound_ bbox))) eqn:N3; [done|].
  destruct (D.isnan (vx (max_bound_ bbox))) eqn:N4; [done|].
  destruct (D.isnan (vy (max_bound_ bbox))) eqn:N5; [done|].
  destruct (D.isnan (vz (max_bound_ bbox))) eqn:N6; [done|].
  intros _ _ Hx Hy Hz.
  apply le_refl in N1, N2, N3, N4, N5, N6. unfold D.le in *.
  by rewrite Hx, Hy, Hz, N1, N2, N3, N4, N5, N6.
Qed.

(** The counter of an accumulator stays an [int]: it counts points that the
    loop has visited, and the loop counter is an [int]. *)
Lemma num_of_points_in_range (voxel_size : double) (bbox : AxisAlignedBoundingBox)
    (cloud : PointCloud) (k : Vector3i) :
  0 ≤ num_of_points_ (voxel_accumulator getVoxelIdx computeVoxelBounds voxel_size
                        bbox cloud k) ≤ INT_MAX.
Proof.
  unfold voxel_accumulator. rewrite add_all_num. cbn [num_of_points_].
  unfold voxel_members, members.
  pose proof (length_filter
    (λ i, isInside bbox (at_ (points_ cloud) i) = true
          ∧ getVoxelIdx (at_ (points_ cloud) i)
              (Vec3 voxel_size voxel_size voxel_size)
              (bounds voxel_size cloud).1 (bounds voxel_size cloud).2 = k)
    (scan_indices cloud)) as Hle.
  unfold scan_indices at 2 in Hle. rewrite length_seq in Hle.
  assert (to_int (Z.of_nat (length (points_ cloud))) ≤ INT_MAX).
  { unfold to_int, INT_MAX.
    pose proof (Z.mod_pos_bound (Z.of_nat (length (points_ cloud)) + 2 ^ 31)
                  (2 ^ 32)). lia. }
  change (num_of_points_ AccumulatedPoint_new) with 0. unfold INT_MAX in *. lia.
Qed.

(** C7.  The size guard of [voxelizeAroundPosition]: for a positive voxel size
    with [voxel_size * INT_MAX] less than the largest extent of the voxel
    bounds of the cloud, the call throws (a [runtime_error]) and returns no
    cloud; whenever that comparison is false, the call throws nothing and
    returns a cloud. *)
Theorem voxelizeAroundPosition_size_guard (voxel_size : double)
    (bbox : AxisAlignedBoundingBox) (cloud : PointCloud) :
  let extent :=
    maxCoeff (vsub (bounds voxel_size cloud).2 (bounds voxel_size cloud).1) in
  (D.lt D.zero voxel_size = true →
   D.lt (D.mul voxel_size (D.of_int INT_MAX)) extent = true →
   voxelizeAP voxel_size bbox cloud
   = inl (runtime_error "[VoxelDownSample] voxel_size is too small."))
  ∧ (D.lt (D.mul voxel_size (D.of_int INT_MAX)) extent = false →
     ∃ output, voxelizeAP voxel_size bbox cloud = inr output).
Proof.
  cbn zeta. unfold voxelizeAroundPosition, too_small, bounds_of. split.
  - intros Hpos Hsmall. by rewrite (pos_not_le_zero _ Hpos), Hsmall.
  - intros Hfit. rewrite Hfit. destruct (D.le voxel_size D.zero); eauto.
Qed.

(** The result of a call on a cloud that the loop counter covers, in terms
    of the points of the cloud. *)
Lemma voxelizeAroundPosition_output (voxel_size : double)
    (bbox : AxisAlignedBoundingBox) (cloud : PointCloud) :
  D.lt D.zero voxel_size = true →
  too_small voxel_size (bounds voxel_size cloud).1 (bounds voxel_size cloud).2 = false →
  Z.of_nat (length (points_ cloud)) ≤ INT_MAX →
  let voxel := in_voxel getVoxelIdx computeVoxelBounds voxel_size bbox cloud in
  let accumulated k :=
    fold_left (λ a i, AddPoint a cloud i) (voxel k) AccumulatedPoint_new in
  ∃ keys : list Vector3i,
    NoDup keys
    ∧ (∀ k, k ∈ keys ↔ voxel k ≠ [])
    ∧ voxelizeAP voxel_size bbox cloud
      = inr (mkPointCloud
               (outside_points bbox cloud
                ++ ((λ k, GetAveragePoint (accumulated k)) <$> keys))
               (if HasNormals cloud
                then outside_attributes bbox (points_ cloud) (normals_ cloud)
                     ++ ((λ k, GetAverageNormal (accumulated k)) <$> keys)
                else [])
               (if HasColors cloud
                then outside_attributes bbox (points_ cloud) (colors_ cloud)
                     ++ ((λ k, GetAverageColor (accumulated k)) <$> keys)
                else [])).
Proof.
  intros Hpos Hfit Hlen voxel accumulated.
  destruct (voxelizeAroundPosition_carves voxel_size bbox cloud
              (pos_not_le_zero _ Hpos) Hfit) as (keys & Hnodup & Hkeys & Hres).
  assert (Hvox : ∀ k, voxel_members getVoxelIdx computeVoxelBounds voxel_size bbox cloud k
                      = voxel k).
  { intros k. unfold voxel_members, voxel, in_voxel. by rewrite scan_indices_all. }
  assert (Hacc : ∀ k, voxel_accumulator getVoxelIdx computeVoxelBounds voxel_size
                        bbox cloud k = accumulated k).
  { intros k. unfold voxel_accumulator, accumulated. by rewrite Hvox. }
  exists keys. split; [done|]. split.
  { intros k. by rewrite Hkeys, Hvox. }
  rewrite Hres. f_equal. unfold carved_cloud.
  rewrite scan_indices_all by done. rewrite outside_points_by_index.
  f_equal.
  - f_equal. apply list_fmap_ext. intros _ k _. by rewrite Hacc.
  - unfold HasNormals. destruct (HasPoints cloud); [|done]. cbn [andb].
    destruct (Nat.eqb_spec (length (normals_ cloud)) (length (points_ cloud)));
      [|done].
    rewrite outside_attributes_by_index by done. f_equal.
    apply list_fmap_ext. intros _ k _. by rewrite Hacc.
  - unfold HasColors. destruct (HasPoints cloud); [|done]. cbn [andb].
    destruct (Nat.eqb_spec (length (colors_ cloud)) (length (points_ cloud)));
      [|done].
    rewrite outside_attributes_by_index by done. f_equal.
    apply list_fmap_ext. intros _ k _. by rewrite Hacc.
Qed.

(** C8 (as amended).  With normals present, the point that
    [voxelizeAroundPosition] puts out for an occupied voxel is the sum of the
    positions of the points of the voxel over their number, and its normal is
    the sum of their valid (NaN-free) normals over that same number: the
    number of all points of the voxel, not of those with a valid normal. *)
Theorem voxel_average_divides_by_point_count (voxel_size : double)
    (bbox : AxisAlignedBoundingBox) (cloud : PointCloud) :
  D.lt D.zero voxel_size = true →
  too_small voxel_size (bounds voxel_size cloud).1 (bounds voxel_size cloud).2 = false →
  Z.of_nat (length (points_ cloud)) ≤ INT_MAX →
  HasNormals cloud = true →
  let voxel := in_voxel getVoxelIdx computeVoxelBounds voxel_size bbox cloud in
  ∃ (output : PointCloud) (keys : list Vector3i),
    voxelizeAP voxel_size bbox cloud = inr output
    ∧ NoDup keys
    ∧ (∀ k, k ∈ keys ↔ voxel k ≠ [])
    ∧ points_ output
      = outside_points bbox cloud
        ++ ((λ k, vdiv (vsum (at_ (points_ cloud) <$> voxel k))
                       (D.of_int (Z.of_nat (length (voxel k))))) <$> keys)
    ∧ normals_ output
      = outside_attributes bbox (points_ cloud) (normals_ cloud)
        ++ ((λ k, vdiv (vsum (valid_normals cloud (voxel k)))
                       (D.of_int (Z.of_nat (length (voxel k))))) <$> keys).
Proof.
  intros Hpos Hfit Hlen Hn voxel.
  destruct (voxelizeAroundPosition_output voxel_size bbox cloud Hpos Hfit Hlen)
    as (keys & Hnodup & Hkeys & Hres).
  eexists _, keys. split; [exact Hres|]. split; [done|]. split; [done|].
  cbn [points_ normals_]. rewrite Hn. split.
  - f_equal. apply list_fmap_ext. intros _ k _. apply GetAveragePoint_add_all.
  - f_equal. apply list_fmap_ext. intros _ k _.
    by apply GetAverageNormal_add_all.
Qed.

(** C9.  For a positive voxel size in range, [voxelizeAroundPosition] splits
    the cloud by the box (bounds included): the output starts with the points
    outside the box, as they are and in input order, with their normals and
    colors when the cloud has them; then comes one averaged point for each
    occupied voxel, and only points in the box are accumulated into voxels. *)
Theorem voxelizeAroundPosition_partition (voxel_size : double)
    (bbox : AxisAlignedBoundingBox) (cloud : PointCloud) :
  D.lt D.zero voxel_size = true →
  too_small voxel_size (bounds voxel_size cloud).1 (bounds voxel_size cloud).2 = false →
  Z.of_nat (length (points_ cloud)) ≤ INT_MAX →
  let voxel := in_voxel getVoxelIdx computeVoxelBounds voxel_size bbox cloud in
  let accumulated k :=
    fold_left (λ a i, AddPoint a cloud i) (voxel k) AccumulatedPoint_new in
  ∃ (output : PointCloud) (keys : list Vector3i),
    voxelizeAP voxel_size bbox cloud = inr output
    ∧ NoDup keys
    ∧ (∀ k, k ∈ keys ↔
         ∃ i, (i < length (points_ cloud))%nat
              ∧ isInside bbox (at_ (points_ cloud) i) = true
              ∧ voxel_of cloud voxel_size (at_ (points_ cloud) i) = k)
    ∧ (∀ k i, i ∈ voxel k ↔
         (i < length (points_ cloud))%nat
         ∧ isInside bbox (at_ (points_ cloud) i) = true
         ∧ voxel_of cloud voxel_size (at_ (points_ cloud) i) = k)
    ∧ points_ output
      = filter (λ p, isInside bbox p = false) (points_ cloud)
        ++ ((λ k, GetAveragePoint (accumulated k)) <$> keys)
    ∧ normals_ output
      = (if HasNormals cloud
         then outside_attributes bbox (points_ cloud) (normals_ cloud)
              ++ ((λ k, GetAverageNormal (accumulated k)) <$> keys)
         else [])
    ∧ colors_ output
      = (if HasColors cloud
         then outside_attributes bbox (points_ cloud) (colors_ cloud)
              ++ ((λ k, GetAverageColor (accumulated k)) <$> keys)
         else []).
Proof.
  intros Hpos Hfit Hlen voxel accumulated.
  destruct (voxelizeAroundPosition_output voxel_size bbox cloud Hpos Hfit Hlen)
    as (keys & Hnodup & Hkeys & Hres).
  eexists _, keys. split; [exact Hres|]. split; [done|]. split; [|split].
  - intros k. rewrite Hkeys. split.
    + destruct (in_voxel _ _ _ _ _ k) as [|i ixs] eqn:E; [done|].
      intros _. exists i. apply elem_of_in_voxel. rewrite E. left.
    + intros (i & Hi). apply elem_of_in_voxel in Hi.
      intros E. rewrite E in Hi. by apply not_elem_of_nil in Hi.
  - intros k i. apply elem_of_in_voxel.
  - done.
Qed.

End VoxelizeSpec.

(** *** The claims at concrete clouds *)

Section VoxelizeRuns.

Import m545_mapping.

Lemma traverse_enumerates (m : VoxelMap) : Voxel.traverse m ≡ₚ map_to_list m.
Proof. done. Qed.

(** A point on the bounds of the box is inside; a point with a NaN
    coordinate is not. *)
Example isInside_on_the_bound : isInside Voxel.unit_box (Vec3 1 (-1) 1) = true.
Proof. reflexivity. Qed.

Example isInside_nan : isInside Voxel.unit_box (Vec3 0 0 nan) = false.
Proof. reflexivity. Qed.

Lemma isInside_corners_witness :
  normal_is_valid (min_bound_ Voxel.unit_box) = true
  ∧ normal_is_valid (max_bound_ Voxel.unit_box) = true
  ∧ isInside Voxel.unit_box (Vec3 (-1) (-1) (-1)) = true
  ∧ isInside Voxel.unit_box (Vec3 1 1 1) = true.
Proof.
  split; [reflexivity|]. split; [reflexivity|].
  apply (isInside_corners Voxel.unit_box); reflexivity.
Defined.

(** The guard at work: a voxel of size 2^-40 is too small for a cloud that
    is four units long, a voxel of size one is not. *)
Lemma voxelizeAroundPosition_size_guard_witness :
  (D.lt D.zero 0x1p-40 = true
   ∧ D.lt (D.mul 0x1p-40 (D.of_int INT_MAX))
          (maxCoeff (vsub (Voxel.GetMaxBound Voxel.line_cloud)
                          (Voxel.GetMinBound Voxel.line_cloud))) = true
   ∧ Voxel.voxelizeAroundPosition 0x1p-40 Voxel.unit_box Voxel.line_cloud
     = inl (runtime_error "[VoxelDownSample] voxel_size is too small."))
  ∧ (D.lt (D.mul 1 (D.of_int INT_MAX))
          (maxCoeff (vsub (Voxel.GetMaxBound Voxel.line_cloud)
                          (Voxel.GetMinBound Voxel.line_cloud))) = false
     ∧ ∃ output,
         Voxel.voxelizeAroundPosition 1 Voxel.unit_box Voxel.line_cloud = inr output).
Proof.
  split.
  - split; [reflexivity|]. split; [reflexivity|].
    apply (proj1 (voxelizeAroundPosition_size_guard Voxel.getVoxelIdx
                    Voxel.computeVoxelBounds Voxel.traverse
                    0x1p-40 Voxel.unit_box Voxel.line_cloud)); reflexivity.
  - split; [reflexivity|].
    apply (proj2 (voxelizeAroundPosition_size_guard Voxel.getVoxelIdx
                    Voxel.computeVoxelBounds Voxel.traverse
                    1 Voxel.unit_box Voxel.line_cloud)); reflexivity.
Defined.

(** C8, as stated, fails.  Two points share a voxel; the first has the normal
    (0, 0, 1), the second a normal with a NaN.  One normal is valid, so the
    mean of the valid normals is (0, 0, 1); the program puts out
    (0, 0, 1) / 2. *)
Lemma voxel_normal_is_not_mean_of_valid_normals :
  ∃ output,
    Voxel.voxelizeAroundPosition 1 Voxel.unit_box Voxel.twin_cloud = inr output
    ∧ in_voxel Voxel.getVoxelIdx Voxel.computeVoxelBounds 1 Voxel.unit_box
        Voxel.twin_cloud (0, 0, 0) = [0; 1]%nat
    ∧ valid_normals Voxel.twin_cloud [0; 1]%nat = [Vec3 0 0 1]
    ∧ mean_of_valid_normals Voxel.twin_cloud [0; 1]%nat = Vec3 0 0 1
    ∧ normals_ output = [Vec3 0 0 0.5]
    ∧ normals_ output ≠ [mean_of_valid_normals Voxel.twin_cloud [0; 1]%nat].
Proof.
  eexists. split; [vm_compute; reflexivity|].
  repeat split; try (vm_compute; reflexivity).
  intros E.
  apply (f_equal (λ l, match l with [n] => D.eq (vz n) 1 | _ => true end)) in E.
  vm_compute in E. discriminate.
Qed.

Lemma voxel_average_divides_by_point_count_witness :
  D.lt D.zero 1 = true
  ∧ too_small 1 (Voxel.GetMinBound Voxel.twin_cloud)
                (Voxel.GetMaxBound Voxel.twin_cloud) = false
  ∧ Z.of_nat (length (points_ Voxel.twin_cloud)) ≤ INT_MAX
  ∧ HasNormals Voxel.twin_cloud = true
  ∧ ∃ (output : PointCloud) (keys : list Vector3i),
      Voxel.voxelizeAroundPosition 1 Voxel.unit_box Voxel.twin_cloud = inr output
      ∧ NoDup keys
      ∧ (∀ k, k ∈ keys ↔
           in_voxel Voxel.getVoxelIdx Voxel.computeVoxelBounds 1 Voxel.unit_box
             Voxel.twin_cloud k ≠ [])
      ∧ points_ output
        = outside_points Voxel.unit_box Voxel.twin_cloud
          ++ ((λ k, vdiv (vsum (at_ (points_ Voxel.twin_cloud) <$>
                                  in_voxel Voxel.getVoxelIdx Voxel.computeVoxelBounds
                                    1 Voxel.unit_box Voxel.twin_cloud k))
                         (D.of_int (Z.of_nat (length
                            (in_voxel Voxel.getVoxelIdx Voxel.computeVoxelBounds
                               1 Voxel.unit_box Voxel.twin_cloud k))))) <$> keys)
      ∧ normals_ output
        = outside_attributes Voxel.unit_box (points_ Voxel.twin_cloud)
            (normals_ Voxel.twin_cloud)
          ++ ((λ k, vdiv (vsum (valid_normals Voxel.twin_cloud
                                  (in_voxel Voxel.getVoxelIdx Voxel.computeVoxelBounds
                                     1 Voxel.unit_box Voxel.twin_cloud k)))
                         (D.of_int (Z.of_nat (length
                            (in_voxel Voxel.getVoxelIdx Voxel.computeVoxelBounds
                               1 Voxel.unit_box Voxel.twin_cloud k))))) <$> keys).
Proof.
  split; [reflexivity|]. split; [reflexivity|].
  split; [by vm_compute|]. split; [reflexivity|].
  apply (voxel_average_divides_by_point_count Voxel.getVoxelIdx
           Voxel.computeVoxelBounds Voxel.traverse traverse_enumerates
           1 Voxel.unit_box Voxel.twin_cloud);
    try reflexivity; by vm_compute.
Defined.

Lemma voxelizeAroundPosition_partition_witness :
  D.lt D.zero 0.125 = true
  ∧ too_small 0.125 (Voxel.GetMinBound Voxel.line_cloud)
                    (Voxel.GetMaxBound Voxel.line_cloud) = false
  ∧ Z.of_nat (length (points_ Voxel.line_cloud)) ≤ INT_MAX
  ∧ ∃ (output : PointCloud) (keys : list Vector3i),
      Voxel.voxelizeAroundPosition 0.125 Voxel.unit_box Voxel.line_cloud = inr output
      ∧ NoDup keys
      ∧ points_ output
        = [Vec3 4 0 0]
          ++ ((λ k, GetAveragePoint
                      (fold_left (λ a i, AddPoint a Voxel.line_cloud i)
                         (in_voxel Voxel.getVoxelIdx Voxel.computeVoxelBounds
                            0.125 Voxel.unit_box Voxel.line_cloud k)
                         AccumulatedPoint_new)) <$> keys)
      ∧ normals_ output
        = [Vec3 1 0 0]
          ++ ((λ k, GetAverageNormal
                      (fold_left (λ a i, AddPoint a Voxel.line_cloud i)
                         (in_voxel Voxel.getVoxelIdx Voxel.computeVoxelBounds
                            0.125 Voxel.unit_box Voxel.line_cloud k)
                         AccumulatedPoint_new)) <$> keys)
      ∧ colors_ output = [].
Proof.
  split; [reflexivity|]. split; [reflexivity|]. split; [by vm_compute|].
  destruct (voxelizeAroundPosition_partition Voxel.getVoxelIdx
              Voxel.computeVoxelBounds Voxel.traverse traverse_enumerates
              0.125 Voxel.unit_box Voxel.line_cloud)
    as (output & keys & Hres & Hnodup & _ & _ & Hp & Hn & Hc);
    [reflexivity | reflexivity | by vm_compute |].
  exists output, keys. split; [exact Hres|]. split; [exact Hnodup|].
  split; [exact Hp|]. split; [exact Hn|]. exact Hc.
Defined.

End VoxelizeRuns.

(** ** [LidarOdometry::addRangeScan] *)

Section AddRangeScanSpec.

Import o3d_slam.

Context `{Open3D}.

(** The three ways through [addRangeScan]. *)
Lemma addRangeScan_no_reference o cloud timestamp g :
  IsEmpty (cloudPrev_ o) = true →
  addRangeScan o cloud timestamp g = (true, first_scan o cloud timestamp, g).
Proof. intros He. unfold addRangeScan. by rewrite He. Qed.

Lemma addRangeScan_earlier o cloud timestamp g :
  IsEmpty (cloudPrev_ o) = false →
  timestamp < lastMeasurementTimestamp_ o →
  addRangeScan o cloud timestamp g = (false, o, g).
Proof.
  intros He Hlt. unfold addRangeScan. rewrite He.
  by rewrite (proj2 (Z.ltb_lt _ _) Hlt).
Qed.

Lemma addRangeScan_registers o cloud timestamp g :
  IsEmpty (cloudPrev_ o) = false →
  ¬ timestamp < lastMeasurementTimestamp_ o →
  let tools := active_tools o in
  let pre := preprocess tools cloud g in
  let result := register o tools pre.1 in
  addRangeScan o cloud timestamp g =
    if D.gt (fitness_ result) (minAcceptableFitness_ (params_ tools))
    then (true, matched_scan o pre.1 result timestamp, pre.2)
    else (false, failed_scan o pre.1, pre.2).
Proof.
  intros He Hge. unfold addRangeScan. rewrite He.
  rewrite (proj2 (Z.ltb_ge _ _)) by lia. cbn zeta.
  by destruct (D.gt _ _).
Qed.

(** A call that returns true records its timestamp. *)
Lemma addRangeScan_true_timestamp o cloud timestamp g :
  (addRangeScan o cloud timestamp g).1.1 = true →
  lastMeasurementTimestamp_ (addRangeScan o cloud timestamp g).1.2 = timestamp.
Proof.
  unfold addRangeScan. destruct (IsEmpty (cloudPrev_ o)); [done|].
  destruct (timestamp <? lastMeasurementTimestamp_ o); [done|]. cbn zeta.
  by destruct (D.gt _ _).
Qed.

(** Only a match moves the cumulative transform. *)
Lemma addRangeScan_cumulative_stays o cloud timestamp g :
  IsEmpty (cloudPrev_ o) = true ∨ (addRangeScan o cloud timestamp g).1.1 = false →
  odomToRangeSensorCumulative_ (addRangeScan o cloud timestamp g).1.2
  = odomToRangeSensorCumulative_ o.
Proof.
  unfold addRangeScan. destruct (IsEmpty (cloudPrev_ o)); [done|].
  destruct (timestamp <? lastMeasurementTimestamp_ o); [done|]. cbn zeta.
  destruct (D.gt _ _); cbn; [by intros [|]|].
  intros _. unfold failed_scan. by destruct (negb _).
Qed.

(** No call sets the mode flag. *)
Lemma addRangeScan_flag_stays_cleared o cloud timestamp g :
  isMapInitializing_ o = false →
  isMapInitializing_ (addRangeScan o cloud timestamp g).1.2 = false.
Proof.
  intros Hf. unfold addRangeScan. destruct (IsEmpty (cloudPrev_ o)); [done|].
  destruct (timestamp <? lastMeasurementTimestamp_ o); [done|]. cbn zeta.
  destruct (D.gt _ _); cbn; unfold failed_scan; [by rewrite Hf|].
  by destruct (negb _).
Qed.

(** C1.  A call whose timestamp is earlier than the last processed one,
    when a reference cloud is stored, returns false and leaves the odometry
    (reference cloud, cumulative transform, buffer, last timestamp, mode flag)
    and the random engine as they were.  In particular, after a call at [t2]
    that returned true and left a reference cloud, a call at [t1 < t2] returns
    false and the buffer keeps its size. *)
Theorem addRangeScan_rejects_out_of_order :
  (∀ o cloud timestamp g,
     IsEmpty (cloudPrev_ o) = false →
     timestamp < lastMeasurementTimestamp_ o →
     addRangeScan o cloud timestamp g = (false, o, g))
  ∧ (∀ o g cloud1 cloud2 cloud3 t1 t2,
       t1 < t2 →
       let call1 := addRangeScan o cloud1 t1 g in
       let call2 := addRangeScan call1.1.2 cloud2 t2 call1.2 in
       let call3 := addRangeScan call2.1.2 cloud3 t1 call2.2 in
       call2.1.1 = true →
       IsEmpty (cloudPrev_ call2.1.2) = false →
       call3 = (false, call2.1.2, call2.2)
       ∧ size (getBuffer call3.1.2) = size (getBuffer call2.1.2)).
Proof.
  split; [apply addRangeScan_earlier|].
  intros o g cloud1 cloud2 cloud3 t1 t2 Hlt call1 call2 call3 Hok Hne.
  assert (Hcall3 : call3 = (false, call2.1.2, call2.2)).
  { apply addRangeScan_earlier; [done|].
    unfold call2. rewrite addRangeScan_true_timestamp; done. }
  by rewrite Hcall3.
Qed.

(** C2.  The first call, with a non-empty cloud, on an odometry that holds no
    reference cloud and an empty buffer: it returns true, the cloud becomes
    the reference as it is, the buffer holds the one entry
    [(t0, cumulative transform)], the timestamp is recorded; the cumulative
    transform and the random engine are untouched (nothing is matched). *)
Theorem addRangeScan_first_scan o cloud t0 g :
  IsEmpty cloud = false →
  IsEmpty (cloudPrev_ o) = true →
  odomToRangeSensorBuffer_ o = [] →
  addRangeScan o cloud t0 g
  = (true,
     mkOdometry cloud (odomToRangeSensorCumulative_ o)
       [(t0, odomToRangeSensorCumulative_ o)] t0 (isMapInitializing_ o)
       (mapInitializingOdomTools_ o) (scanToScanOdomTools_ o),
     g)
  ∧ size (getBuffer (addRangeScan o cloud t0 g).1.2) = 1%nat
  ∧ IsEmpty (getPreProcessedCloud (addRangeScan o cloud t0 g).1.2) = false
  ∧ getBuffer (addRangeScan o cloud t0 g).1.2
    = push t0 (odomToRangeSensorCumulative_ o) (getBuffer o).
Proof.
  intros Hc He Hb. rewrite addRangeScan_no_reference by done.
  unfold first_scan, getBuffer, push. rewrite Hb. done.
Qed.

(** C3.  Once a scan is matched (a reference cloud is stored and the
    timestamp is not earlier than the last one), the call returns true exactly
    when the fitness of the match is strictly greater than
    [minAcceptableFitness_] of the active tools; a fitness equal to the
    threshold is rejected. *)
Theorem addRangeScan_accepts_above_threshold o cloud timestamp g :
  IsEmpty (cloudPrev_ o) = false →
  ¬ timestamp < lastMeasurementTimestamp_ o →
  let tools := active_tools o in
  let result := register o tools (preprocess tools cloud g).1 in
  let threshold := minAcceptableFitness_ (params_ tools) in
  (addRangeScan o cloud timestamp g).1.1 = D.gt (fitness_ result) threshold
  ∧ (D.eq (fitness_ result) threshold = true →
     (addRangeScan o cloud timestamp g).1.1 = false)
  ∧ (fitness_ result = threshold →
     (addRangeScan o cloud timestamp g).1.1 = false).
Proof.
  intros He Hge tools result threshold.
  assert (Hret : (addRangeScan o cloud timestamp g).1.1
                 = D.gt (fitness_ result) threshold).
  { rewrite addRangeScan_registers by done. cbn zeta.
    fold tools. fold result. fold threshold. by destruct (D.gt _ _). }
  rewrite Hret. split; [done|]. split.
  - apply eq_not_gt.
  - intros ->. apply gt_irrefl.
Qed.

(** C4.  A matched scan whose fitness is not above the threshold: the call
    returns false; the preprocessed cloud becomes the reference if it is not
    empty, else the reference stays; the cumulative transform, the buffer,
    the last timestamp and the mode flag stay. *)
Theorem addRangeScan_rejected_scan o cloud timestamp g :
  IsEmpty (cloudPrev_ o) = false →
  ¬ timestamp < lastMeasurementTimestamp_ o →
  let tools := active_tools o in
  let downSampledCloud := (preprocess tools cloud g).1 in
  let result := register o tools downSampledCloud in
  D.gt (fitness_ result) (minAcceptableFitness_ (params_ tools)) = false →
  let after := (addRangeScan o cloud timestamp g).1.2 in
  (addRangeScan o cloud timestamp g).1.1 = false
  ∧ cloudPrev_ after
    = (if IsEmpty downSampledCloud then cloudPrev_ o else downSampledCloud)
  ∧ odomToRangeSensorCumulative_ after = odomToRangeSensorCumulative_ o
  ∧ odomToRangeSensorBuffer_ after = odomToRangeSensorBuffer_ o
  ∧ size (getBuffer after) = size (getBuffer o)
  ∧ lastMeasurementTimestamp_ after = lastMeasurementTimestamp_ o
  ∧ isMapInitializing_ after = isMapInitializing_ o.
Proof.
  intros He Hge tools downSampledCloud result Hlow after. unfold after.
  rewrite addRangeScan_registers by done. cbn zeta.
  fold tools. fold downSampledCloud. fold result. rewrite Hlow.
  cbn [fst snd]. unfold failed_scan.
  by destruct (IsEmpty downSampledCloud).
Qed.

(** C5.  A matched scan whose fitness is above the threshold: the call
    returns true; the cumulative transform is multiplied on the right by the
    inverse of the transform of the match; the preprocessed cloud becomes the
    reference; [(timestamp, new cumulative transform)] is pushed on the
    buffer; the timestamp is recorded. *)
Theorem addRangeScan_accepted_scan o cloud timestamp g :
  IsEmpty (cloudPrev_ o) = false →
  ¬ timestamp < lastMeasurementTimestamp_ o →
  let tools := active_tools o in
  let downSampledCloud := (preprocess tools cloud g).1 in
  let result := register o tools downSampledCloud in
  D.gt (fitness_ result) (minAcceptableFitness_ (params_ tools)) = true →
  let after := (addRangeScan o cloud timestamp g).1.2 in
  let cumulative :=
    mat_mul (odomToRangeSensorCumulative_ o) (mat_inverse (transformation_ result)) in
  (addRangeScan o cloud timestamp g).1.1 = true
  ∧ odomToRangeSensorCumulative_ after = cumulative
  ∧ cloudPrev_ after = downSampledCloud
  ∧ odomToRangeSensorBuffer_ after
    = odomToRangeSensorBuffer_ o ++ [(timestamp, cumulative)]
  ∧ size (getBuffer after) = S (size (getBuffer o))
  ∧ lastMeasurementTimestamp_ after = timestamp
  ∧ isMapInitializing_ after = false
  ∧ getBuffer after = push timestamp cumulative (getBuffer o).
Proof.
  intros He Hge tools downSampledCloud result Hhigh after cumulative.
  unfold after. rewrite addRangeScan_registers by done. cbn zeta.
  fold tools. fold downSampledCloud. fold result. rewrite Hhigh.
  cbn [fst snd]. unfold matched_scan, getBuffer, size, push. cbn.
  repeat split; try done.
  - rewrite length_app. cbn. lia.
  - by destruct (isMapInitializing_ o).
Qed.

(** Over a stream of scans, a cleared mode flag stays cleared. *)
Lemma feed_flag_stays_cleared o g scans :
  isMapInitializing_ o = false →
  isMapInitializing_ (feed o g scans).1.2 = false.
Proof.
  revert o g. induction scans as [|[cloud timestamp] scans IH]; intros o g Hf;
    [done|].
  cbn [feed fst snd]. apply IH. by apply addRangeScan_flag_stays_cleared.
Qed.

(** C6 (as amended).  The mode flag is cleared by the first call that returns
    true after matching against a stored reference cloud; a call that finds
    no reference cloud returns true and leaves the flag as it is, and so does
    a call that returns false; once cleared, the flag stays cleared over
    every further stream of calls, rejected scans included. *)
Theorem map_initializing_ends_at_first_match :
  (∀ o cloud timestamp g,
     IsEmpty (cloudPrev_ o) = false →
     (addRangeScan o cloud timestamp g).1.1 = true →
     isMapInitializing_ (addRangeScan o cloud timestamp g).1.2 = false)
  ∧ (∀ o cloud timestamp g,
       IsEmpty (cloudPrev_ o) = true ∨ (addRangeScan o cloud timestamp g).1.1 = false →
       isMapInitializing_ (addRangeScan o cloud timestamp g).1.2
       = isMapInitializing_ o)
  ∧ (∀ o g scans,
       isMapInitializing_ o = false →
       isMapInitializing_ (feed o g scans).1.2 = false).
Proof.
  split; [|split].
  - intros o cloud timestamp g He. unfold addRangeScan. rewrite He.
    destruct (timestamp <? lastMeasurementTimestamp_ o); [done|]. cbn zeta.
    destruct (D.gt _ _); [|done]. intros _. cbn.
    by destruct (isMapInitializing_ o).
  - intros o cloud timestamp g. unfold addRangeScan.
    destruct (IsEmpty (cloudPrev_ o)); [done|].
    destruct (timestamp <? lastMeasurementTimestamp_ o); [done|]. cbn zeta.
    destruct (D.gt _ _); cbn; [by intros [|]|].
    intros _. unfold failed_scan. by destruct (negb _).
  - apply feed_flag_stays_cleared.
Qed.

(** With the file's [push] these are [addRangeScan] and [feed]. *)
Lemma addRangeScan_with_push o cloud timestamp g :
  addRangeScan_with push o cloud timestamp g = addRangeScan o cloud timestamp g.
Proof. reflexivity. Qed.

Lemma feed_with_push o g scans : feed_with push o g scans = feed o g scans.
Proof.
  revert o g. induction scans as [|[cloud timestamp] scans IH]; intros o g; [done|].
  cbn [feed feed_with]. by rewrite addRangeScan_with_push, IH.
Qed.

Section EmptyClouds.

Variable push_ :
  Time → Transform → TransformInterpolationBuffer → TransformInterpolationBuffer.







End EmptyClouds.

End AddRangeScanSpec.

(** *** The claims on concrete runs *)

Section AddRangeScanRuns.

Import o3d_slam Demo.

(** A run: the first scan is taken as reference, the second matches, the
    third (a cloud of another size) fails to match, the fourth is out of
    order. *)
Example feed_four_scans :
  (feed (fresh 0.5) 0
     [(two_points, 1); (two_points, 2); (one_point, 3); (two_points, 1)]).1.1
  = [true; true; false; false].
Proof. reflexivity. Qed.

Lemma addRangeScan_rejects_out_of_order_witness :
  (IsEmpty (cloudPrev_ (started 0.5)) = false
   ∧ 0 < lastMeasurementTimestamp_ (started 0.5)
   ∧ addRangeScan (started 0.5) one_point 0 0 = (false, started 0.5, 0))
  ∧ (1 < 2
     ∧ (addRangeScan (started 0.5) two_points 2 0).1.1 = true
     ∧ IsEmpty (cloudPrev_ (addRangeScan (started 0.5) two_points 2 0).1.2) = false
     ∧ addRangeScan (addRangeScan (started 0.5) two_points 2 0).1.2 one_point 1
         (addRangeScan (started 0.5) two_points 2 0).2
       = (false, (addRangeScan (started 0.5) two_points 2 0).1.2,
          (addRangeScan (started 0.5) two_points 2 0).2)).
Proof.
  split.
  - split; [reflexivity|]. split; [reflexivity|].
    apply (proj1 (addRangeScan_rejects_out_of_order (H := backend))); reflexivity.
  - split; [reflexivity|]. split; [reflexivity|]. split; [reflexivity|].
    apply (proj2 (addRangeScan_rejects_out_of_order (H := backend)) (fresh 0.5)
             (0 : @Rng backend) two_points two_points one_point 1 2);
      reflexivity.
Defined.

Lemma addRangeScan_first_scan_witness :
  IsEmpty two_points = false
  ∧ IsEmpty (cloudPrev_ (fresh 0.5)) = true
  ∧ odomToRangeSensorBuffer_ (fresh 0.5) = []
  ∧ addRangeScan (fresh 0.5) two_points 1 0
    = (true,
       mkOdometry two_points Identity [(1, Identity)] 1 true (tools 0.5) (tools 0.5),
       0)
  ∧ size (getBuffer (addRangeScan (fresh 0.5) two_points 1 0).1.2) = 1%nat.
Proof.
  split; [reflexivity|]. split; [reflexivity|]. split; [reflexivity|].
  destruct (addRangeScan_first_scan (H := backend) (fresh 0.5) two_points 1 0)
    as (Hcall & Hsize & _); [reflexivity..|].
  split; [exact Hcall | exact Hsize].
Defined.

(** With the threshold at one, a fitness of one is not enough. *)
Lemma addRangeScan_accepts_above_threshold_witness :
  IsEmpty (cloudPrev_ (started 1)) = false
  ∧ ¬ 2 < lastMeasurementTimestamp_ (started 1)
  ∧ D.eq (fitness_ (register (started 1) (active_tools (started 1))
                      (preprocess (active_tools (started 1)) two_points 0).1))
         (minAcceptableFitness_ (params_ (active_tools (started 1)))) = true
  ∧ (addRangeScan (started 1) two_points 2 0).1.1 = false.
Proof.
  assert (H1 : IsEmpty (cloudPrev_ (started 1)) = false) by reflexivity.
  assert (H2 : ¬ 2 < lastMeasurementTimestamp_ (started 1)) by (by vm_compute).
  split; [exact H1|]. split; [exact H2|]. split; [reflexivity|].
  apply (proj1 (proj2 (addRangeScan_accepts_above_threshold (H := backend)
                         (started 1) two_points 2 0 H1 H2))).
  reflexivity.
Defined.

Lemma addRangeScan_rejected_scan_witness :
  IsEmpty (cloudPrev_ (started 0.5)) = false
  ∧ ¬ 2 < lastMeasurementTimestamp_ (started 0.5)
  ∧ D.gt (fitness_ (register (started 0.5) (active_tools (started 0.5))
                      (preprocess (active_tools (started 0.5)) one_point 0).1))
         (minAcceptableFitness_ (params_ (active_tools (started 0.5)))) = false
  ∧ (addRangeScan (started 0.5) one_point 2 0).1.1 = false
  ∧ cloudPrev_ (addRangeScan (started 0.5) one_point 2 0).1.2 = one_point
  ∧ odomToRangeSensorBuffer_ (addRangeScan (started 0.5) one_point 2 0).1.2
    = odomToRangeSensorBuffer_ (started 0.5)
  ∧ lastMeasurementTimestamp_ (addRangeScan (started 0.5) one_point 2 0).1.2 = 1.
Proof.
  assert (H1 : IsEmpty (cloudPrev_ (started 0.5)) = false) by reflexivity.
  assert (H2 : ¬ 2 < lastMeasurementTimestamp_ (started 0.5)) by (by vm_compute).
  split; [exact H1|]. split; [exact H2|]. split; [reflexivity|].
  destruct (addRangeScan_rejected_scan (H := backend) (started 0.5) one_point 2 0 H1 H2)
    as (Hret & Hcloud & _ & Hbuf & _ & Hlast & _); [reflexivity|].
  split; [exact Hret|]. split; [exact Hcloud|]. split; [exact Hbuf | exact Hlast].
Defined.

Lemma addRangeScan_accepted_scan_witness :
  IsEmpty (cloudPrev_ (started 0.5)) = false
  ∧ ¬ 2 < lastMeasurementTimestamp_ (started 0.5)
  ∧ D.gt (fitness_ (register (started 0.5) (active_tools (started 0.5))
                      (preprocess (active_tools (started 0.5)) two_points 0).1))
         (minAcceptableFitness_ (params_ (active_tools (started 0.5)))) = true
  ∧ (addRangeScan (started 0.5) two_points 2 0).1.1 = true
  ∧ odomToRangeSensorCumulative_ (addRangeScan (started 0.5) two_points 2 0).1.2
    = product Identity (rigid_inverse Identity)
  ∧ odomToRangeSensorBuffer_ (addRangeScan (started 0.5) two_points 2 0).1.2
    = [(1, Identity); (2, product Identity (rigid_inverse Identity))]
  ∧ lastMeasurementTimestamp_ (addRangeScan (started 0.5) two_points 2 0).1.2 = 2.
Proof.
  assert (H1 : IsEmpty (cloudPrev_ (started 0.5)) = false) by reflexivity.
  assert (H2 : ¬ 2 < lastMeasurementTimestamp_ (started 0.5)) by (by vm_compute).
  split; [exact H1|]. split; [exact H2|]. split; [reflexivity|].
  destruct (addRangeScan_accepted_scan (H := backend) (started 0.5) two_points 2 0 H1 H2)
    as (Hret & Hcum & _ & Hbuf & _ & Hlast & _); [reflexivity|].
  split; [exact Hret|]. split; [exact Hcum|]. split; [exact Hbuf | exact Hlast].
Defined.

(** C6, as stated, fails.  In map-initializing mode, the first call returns
    true (the scan is accepted) and the mode flag is still set after it. *)
Lemma first_scan_keeps_map_initializing :
  isMapInitializing_ (fresh 0.5) = true
  ∧ (addRangeScan (fresh 0.5) two_points 1 0).1.1 = true
  ∧ isMapInitializing_ (addRangeScan (fresh 0.5) two_points 1 0).1.2 = true.
Proof. repeat split. Qed.

Lemma map_initializing_ends_at_first_match_witness :
  (IsEmpty (cloudPrev_ (started 0.5)) = false
   ∧ (addRangeScan (started 0.5) two_points 2 0).1.1 = true
   ∧ isMapInitializing_ (started 0.5) = true
   ∧ isMapInitializing_ (addRangeScan (started 0.5) two_points 2 0).1.2 = false)
  ∧ (IsEmpty (cloudPrev_ (fresh 0.5)) = true
     ∧ isMapInitializing_ (addRangeScan (fresh 0.5) two_points 1 0).1.2
       = isMapInitializing_ (fresh 0.5))
  ∧ (isMapInitializing_ (addRangeScan (started 0.5) two_points 2 0).1.2 = false
     ∧ isMapInitializing_
         (feed (addRangeScan (started 0.5) two_points 2 0).1.2 1
            [(one_point, 3); (two_points, 1)]).1.2 = false).
Proof.
  split; [|split].
  - split; [reflexivity|]. split; [reflexivity|]. split; [reflexivity|].
    apply (proj1 (map_initializing_ends_at_first_match (H := backend)));
      reflexivity.
  - split; [reflexivity|].
    apply (proj1 (proj2 (map_initializing_ends_at_first_match (H := backend)))).
    left. reflexivity.
  - split; [reflexivity|].
    apply (proj2 (proj2 (map_initializing_ends_at_first_match (H := backend)))).
    reflexivity.
Defined.



End AddRangeScanRuns.

(** ** The odometry over a stream of scans *)

Section OdometryInvariants.

Import o3d_slam.

Context `{Open3D}.

Lemma feed_cons o g cloud timestamp scans :
  feed o g ((cloud, timestamp) :: scans)
  = ((addRangeScan o cloud timestamp g).1.1
       :: (feed (addRangeScan o cloud timestamp g).1.2
             (addRangeScan o cloud timestamp g).2 scans).1.1,
     (feed (addRangeScan o cloud timestamp g).1.2
        (addRangeScan o cloud timestamp g).2 scans).1.2,
     (feed (addRangeScan o cloud timestamp g).1.2
        (addRangeScan o cloud timestamp g).2 scans).2).
Proof. done. Qed.

(** A property that every call keeps holds after every stream of calls. *)
Lemma feed_invariant (P : LidarOdometry → Prop) :
  (∀ o cloud timestamp g, P o → P (addRangeScan o cloud timestamp g).1.2) →
  ∀ scans o g, P o → P (feed o g scans).1.2.
Proof.
  intros Hstep scans. induction scans as [|[cloud timestamp] scans IH];
    intros o g HP; [done|].
  rewrite feed_cons. cbn [fst snd]. apply IH, Hstep, HP.
Qed.

(** One call: a pose is pushed exactly when the call returns true. *)
Lemma addRangeScan_buffer o cloud timestamp g :
  getBuffer (addRangeScan o cloud timestamp g).1.2
  = if (addRangeScan o cloud timestamp g).1.1
    then push timestamp
           (odomToRangeSensorCumulative_ (addRangeScan o cloud timestamp g).1.2)
           (getBuffer o)
    else getBuffer o.
Proof.
  unfold addRangeScan. destruct (IsEmpty (cloudPrev_ o)); [done|].
  destruct (timestamp <? lastMeasurementTimestamp_ o); [done|]. cbn zeta.
  destruct (D.gt _ _); cbn; [done|]. unfold failed_scan. by destruct (negb _).
Qed.

(** X3.  Over any stream of calls, [addRangeScan] pushes one pose for each
    call that returns true and none for the others, and it never removes or
    rewrites a pose: the poses held before are a prefix of those held
    after. *)
Theorem one_pose_per_accepted_scan o g scans :
  getBuffer o `prefix_of` getBuffer (feed o g scans).1.2
  ∧ size (getBuffer (feed o g scans).1.2)
    = (size (getBuffer o)
       + length (filter (λ accepted, accepted = true) (feed o g scans).1.1))%nat
  ∧ (hasProcessedMeasurements (feed o g scans).1.2 = true ↔
       hasProcessedMeasurements o = true ∨ true ∈ (feed o g scans).1.1).
Proof.
  revert o g. induction scans as [|[cloud timestamp] scans IH]; intros o g.
  { cbn. split; [done|]. split; [lia|]. rewrite elem_of_nil. tauto. }
  rewrite feed_cons. cbn [fst snd].
  destruct (IH (addRangeScan o cloud timestamp g).1.2
               (addRangeScan o cloud timestamp g).2) as (Hpre & Hsize & Hhas).
  assert (Hst : hasProcessedMeasurements (addRangeScan o cloud timestamp g).1.2 = true
                ↔ hasProcessedMeasurements o = true
                  ∨ (addRangeScan o cloud timestamp g).1.1 = true).
  { unfold hasProcessedMeasurements. fold (getBuffer o).
    fold (getBuffer (addRangeScan o cloud timestamp g).1.2).
    rewrite addRangeScan_buffer.
    destruct ((addRangeScan o cloud timestamp g).1.1); unfold push.
    - destruct (getBuffer o); cbn; tauto.
    - intuition congruence. }
  rewrite Hhas, Hst, elem_of_cons. rewrite Hsize.
  rewrite addRangeScan_buffer in Hpre |- *.
  destruct ((addRangeScan o cloud timestamp g).1.1) eqn:Hok; unfold push in *.
  - split; [|split].
    + etrans; [|exact Hpre]. by apply prefix_app_r.
    + rewrite filter_cons_True by done. unfold size. rewrite length_app. cbn. lia.
    + intuition congruence.
  - split; [done|]. split.
    + by rewrite filter_cons_False by done.
    + intuition congruence.
Qed.

(** X4.  If the newest pose carries the last processed timestamp and the
    cumulative transform (or no pose has been pushed yet), it still does
    after any stream of calls. *)
Theorem newest_pose_stays_current o g scans :
  newest_pose_is_current o →
  newest_pose_is_current (feed o g scans).1.2.
Proof.
  revert scans o g. apply feed_invariant. clear.
  intros o cloud timestamp g Hinv. unfold newest_pose_is_current in *.
  unfold addRangeScan. destruct (IsEmpty (cloudPrev_ o)).
  { right. cbn. unfold push. by rewrite last_snoc. }
  destruct (timestamp <? lastMeasurementTimestamp_ o); [done|]. cbn zeta.
  destruct (D.gt _ _); cbn.
  - right. unfold push. by rewrite last_snoc.
  - unfold failed_scan. by destruct (negb _).
Qed.

Lemma Sorted_snoc (l : list Z) (x : Z) :
  Sorted Z.le l → (∀ y, last l = Some y → y ≤ x) → Sorted Z.le (l ++ [x]).
Proof.
  induction l as [|a l IH]; intros Hs Hlast; [by repeat constructor|].
  apply Sorted_inv in Hs as [Hs Hhd]. cbn. constructor.
  - apply IH; [done|]. intros y Hy. apply Hlast.
    destruct l; [done|]. done.
  - destruct l as [|b l]; cbn.
    + constructor. by apply Hlast.
    + constructor. by apply HdRel_inv in Hhd.
Qed.

(** X5.  While a reference cloud is stored (or before the first pose), a
    call keeps the pushed timestamps in non-decreasing order: a call can only
    push an earlier timestamp through the first-scan branch. *)
Theorem pose_times_stay_sorted o cloud timestamp g :
  Sorted Z.le (pose_times (getBuffer o)) →
  newest_pose_is_current o →
  IsEmpty (cloudPrev_ o) = false ∨ getBuffer o = [] →
  Sorted Z.le (pose_times (getBuffer (addRangeScan o cloud timestamp g).1.2)).
Proof.
  intros Hsorted Hnewest Hcase. rewrite addRangeScan_buffer.
  destruct ((addRangeScan o cloud timestamp g).1.1) eqn:Hok; [|done].
  unfold push, pose_times. rewrite fmap_app. cbn.
  apply Sorted_snoc; [done|]. intros y Hy.
  destruct Hcase as [Href|Hempty].
  - destruct Hnewest as [Hb|Hb].
    { unfold getBuffer in Hy. by rewrite Hb in Hy. }
    unfold getBuffer in Hy. rewrite fmap_last, Hb in Hy. injection Hy as <-.
    revert Hok. unfold addRangeScan. rewrite Href.
    destruct (timestamp <? lastMeasurementTimestamp_ o) eqn:Hlt; [done|].
    intros _. by apply Z.ltb_ge in Hlt.
  - by rewrite Hempty in Hy.
Qed.

(** X6.  No stream of calls changes either tool set: the parameters, the
    cropper, the estimator, the iteration cap and the seed transform of the
    scan matcher stay as configured (the seed is never updated from a
    match). *)
Theorem addRangeScan_keeps_the_tools o g scans :
  mapInitializingOdomTools_ (feed o g scans).1.2 = mapInitializingOdomTools_ o
  ∧ scanToScanOdomTools_ (feed o g scans).1.2 = scanToScanOdomTools_ o.
Proof.
  revert o g. induction scans as [|[cloud timestamp] scans IH]; intros o g; [done|].
  rewrite feed_cons. cbn [fst snd].
  destruct (IH (addRangeScan o cloud timestamp g).1.2
               (addRangeScan o cloud timestamp g).2) as [-> ->].
  unfold addRangeScan. destruct (IsEmpty (cloudPrev_ o)); [done|].
  destruct (timestamp <? lastMeasurementTimestamp_ o); [done|]. cbn zeta.
  destruct (D.gt _ _); cbn; [done|]. unfold failed_scan. by destruct (negb _).
Qed.

(** In steady state a call does not read the map-initializing tools. *)
Lemma addRangeScan_steady_ignores_map_tools t o cloud timestamp g :
  isMapInitializing_ o = false →
  addRangeScan (set_mapInitializingOdomTools t o) cloud timestamp g
  = ((addRangeScan o cloud timestamp g).1.1,
     set_mapInitializingOdomTools t (addRangeScan o cloud timestamp g).1.2,
     (addRangeScan o cloud timestamp g).2).
Proof.
  intros Hf. destruct o as [ref cum buf stamp flag mtools stools].
  cbn in Hf. subst flag.
  unfold addRangeScan, set_mapInitializingOdomTools, active_tools, register,
    first_scan, failed_scan, matched_scan. cbn.
  destruct (IsEmpty ref); [done|].
  destruct (timestamp <? stamp); [done|].
  destruct (PrimFloat.ltb _ _); cbn; [done|]. by destruct (negb _).
Qed.

Lemma feed_steady_ignores_map_tools t o g scans :
  isMapInitializing_ o = false →
  feed (set_mapInitializingOdomTools t o) g scans
  = ((feed o g scans).1.1,
     set_mapInitializingOdomTools t (feed o g scans).1.2,
     (feed o g scans).2).
Proof.
  revert o g. induction scans as [|[cloud timestamp] scans IH]; intros o g Hf;
    [done|].
  rewrite !feed_cons, addRangeScan_steady_ignores_map_tools by done.
  cbn [fst snd].
  by rewrite IH by by apply addRangeScan_flag_stays_cleared.
Qed.

(** X7.  In steady state (mode flag cleared) [setInitialTransform] changes
    nothing that [addRangeScan] does: over any stream of calls the returned
    flags, the random engine and the odometry are the same, up to the seed
    stored in the map-initializing tools. *)
Theorem setInitialTransform_idle_in_steady_state initialTransform o g scans :
  isMapInitializing_ o = false →
  feed (setInitialTransform initialTransform o) g scans
  = ((feed o g scans).1.1,
     setInitialTransform initialTransform (feed o g scans).1.2,
     (feed o g scans).2).
Proof.
  intros Hf. unfold setInitialTransform.
  rewrite feed_steady_ignores_map_tools by done.
  by rewrite (proj1 (addRangeScan_keeps_the_tools o g scans)).
Qed.

(** A call that returns false leaves everything but the reference cloud,
    and does not drop the reference. *)
Lemma addRangeScan_false o cloud timestamp g :
  (addRangeScan o cloud timestamp g).1.1 = false →
  getBuffer (addRangeScan o cloud timestamp g).1.2 = getBuffer o
  ∧ odomToRangeSensorCumulative_ (addRangeScan o cloud timestamp g).1.2
    = odomToRangeSensorCumulative_ o
  ∧ lastMeasurementTimestamp_ (addRangeScan o cloud timestamp g).1.2
    = lastMeasurementTimestamp_ o
  ∧ isMapInitializing_ (addRangeScan o cloud timestamp g).1.2 = isMapInitializing_ o
  ∧ IsEmpty (cloudPrev_ o) = false
  ∧ IsEmpty (cloudPrev_ (addRangeScan o cloud timestamp g).1.2) = false.
Proof.
  unfold addRangeScan. destruct (IsEmpty (cloudPrev_ o)) eqn:Href; [done|].
  destruct (timestamp <? lastMeasurementTimestamp_ o); [done|]. cbn zeta.
  destruct (D.gt _ _); cbn [fst snd negb]; [done|]. intros _.
  unfold failed_scan.
  by destruct (IsEmpty (preprocess (active_tools o) cloud g).1) eqn:Hpre.
Qed.

(** X17.  A stream of calls that all return false (out of order, or matched
    below the threshold) leaves the trajectory as it was: the poses, the
    cumulative transform, the last processed timestamp and the mode are
    unchanged, and a reference cloud is still stored; only the reference
    cloud itself may have been replaced. *)
Theorem rejected_scans_leave_the_trajectory o g scans :
  Forall (λ accepted, accepted = false) (feed o g scans).1.1 →
  getBuffer (feed o g scans).1.2 = getBuffer o
  ∧ odomToRangeSensorCumulative_ (feed o g scans).1.2 = odomToRangeSensorCumulative_ o
  ∧ lastMeasurementTimestamp_ (feed o g scans).1.2 = lastMeasurementTimestamp_ o
  ∧ isMapInitializing_ (feed o g scans).1.2 = isMapInitializing_ o
  ∧ IsEmpty (cloudPrev_ (feed o g scans).1.2) = IsEmpty (cloudPrev_ o)
  ∧ (scans ≠ [] → IsEmpty (cloudPrev_ o) = false).
Proof.
  revert o g. induction scans as [|[cloud timestamp] scans IH]; intros o g Hall;
    [done|].
  rewrite feed_cons in Hall |- *. cbn [fst snd] in *.
  apply Forall_cons in Hall as [Hfalse Hall].
  destruct (addRangeScan_false o cloud timestamp g Hfalse)
    as (Hb & Hc & Ht & Hf & Hr & Hr').
  destruct (IH _ _ Hall) as (Hb' & Hc' & Ht' & Hf' & Hr'' & _).
  rewrite Hb', Hc', Ht', Hf', Hr'', Hb, Hc, Ht, Hf, Hr, Hr'. done.
Qed.

End OdometryInvariants.

(** ** Configuration *)

Section ConfigurationSpec.

Import o3d_slam.

Context `{Open3D}.

Variable CropperParameters : Type.
Variable scanProcessing_cropper_ : ScanProcessingParameters -> CropperParameters.
Variable croppingVolumeFactory :
  CropperParameters -> m545_mapping.exception + (PointCloud -> PointCloud).

Local Abbreviation tools_setParameters :=
  (LidarOdometryTools_setParameters CropperParameters scanProcessing_cropper_
     croppingVolumeFactory).
Local Abbreviation odometry_setParameters :=
  (setParameters CropperParameters scanProcessing_cropper_ croppingVolumeFactory).

(** Configured tools carry their parameters, and the estimator and the
    iteration cap that go with them, whether or not the cropper could be
    built. *)
Lemma LidarOdometryTools_setParameters_follows p t :
  params_ (tools_setParameters p t).2 = p
  ∧ tools_follow_params (tools_setParameters p t).2.
Proof.
  unfold LidarOdometryTools_setParameters, tools_follow_params.
  by destruct (croppingVolumeFactory _).
Qed.

(** The estimator is the point-to-plane one exactly for the point-to-plane
    objective. *)
Lemma icpObjectiveFactory_PointToPlane obj :
  IcpObjective_eqb obj PointToPlane = true
  ↔ icpObjectiveFactory obj = TransformationEstimationPointToPlane.
Proof. by destruct obj. Qed.

(** X8.  After a [setParameters] that returns normally, at every later call
    of [addRangeScan] the tools of the current mode carry the parameters
    given for that mode, with the estimator of their objective and their
    iteration cap.  The odometry is map-initializing only if it was
    configured so.  The objective tested on line 55 and the estimator handed
    to the matching on line 62 agree: the preprocessing of a scan ends with
    [estimateNormals] and [NormalizeNormals] on the down-sampled cloud when
    the estimator of the current tools is the point-to-plane one, and with
    the down-sampled cloud as it is when it is the point-to-point one. *)
Theorem configured_tools_stay_in_force p o o' g scans :
  odometry_setParameters p o = (None, o') →
  let now := (feed o' g scans).1.2 in
  params_ (active_tools now)
  = (if isMapInitializing_ now then mapInitializingToolsParams_ p
     else scanToScanToolsParams_ p)
  ∧ tools_follow_params (active_tools now)
  ∧ (IcpObjective_eqb (icpObjective_ (scanMatcher_ (params_ (active_tools now))))
       PointToPlane = true
     ↔ tools_icpObjective_ (active_tools now) = TransformationEstimationPointToPlane)
  ∧ (isMapInitializing_ now = true → odometry_isMapInitializing_ p = true)
  ∧ (∀ cloud g',
       let tools := active_tools now in
       let downSampled :=
         (RandomDownSample
            (m545_mapping.voxelize VoxelDownSample
               (voxelSize_ (scanProcessing_ (params_ tools)))
               (cropper_ tools cloud))
            (downSamplingRatio_ (scanProcessing_ (params_ tools))) g').1 in
       (preprocess tools cloud g').1
       = match tools_icpObjective_ tools with
         | TransformationEstimationPointToPlane =>
           NormalizeNormals
             (m545_mapping.estimateNormals EstimateNormals
                (kNNnormalEstimation_ (scanMatcher_ (params_ tools))) downSampled)
         | TransformationEstimationPointToPoint _ => downSampled
         end).
Proof.
  intros Hset now.
  assert (Hconf :
    (params_ (scanToScanOdomTools_ o') = scanToScanToolsParams_ p
     ∧ tools_follow_params (scanToScanOdomTools_ o'))
    ∧ (isMapInitializing_ o' = true →
       params_ (mapInitializingOdomTools_ o') = mapInitializingToolsParams_ p
       ∧ tools_follow_params (mapInitializingOdomTools_ o')
       ∧ odometry_isMapInitializing_ p = true)).
  { revert Hset. unfold setParameters. cbn [isMapInitializing_ set_isMapInitializing
      set_scanToScanOdomTools scanToScanOdomTools_ mapInitializingOdomTools_].
    pose proof (LidarOdometryTools_setParameters_follows
                  (scanToScanToolsParams_ p) (scanToScanOdomTools_ o)) as Hs.
    pose proof (LidarOdometryTools_setParameters_follows
                  (mapInitializingToolsParams_ p) (mapInitializingOdomTools_ o)) as Hm.
    destruct (tools_setParameters (scanToScanToolsParams_ p) _) as [[e|] s2s];
      cbn [fst snd] in *; [done|].
    destruct (odometry_isMapInitializing_ p) eqn:Hflag.
    - destruct (tools_setParameters (mapInitializingToolsParams_ p) _) as [e mi].
      cbn [fst snd] in *. intros [= -> <-]. cbn. tauto.
    - intros [= <-]. cbn. by split. }
  destruct (addRangeScan_keeps_the_tools o' g scans) as [Hmi Hs2s].
  assert (Hflag : isMapInitializing_ now = true → isMapInitializing_ o' = true).
  { destruct (isMapInitializing_ o') eqn:Hf; [done|].
    unfold now. rewrite feed_flag_stays_cleared by done. done. }
  assert (Hactive :
    params_ (active_tools now)
    = (if isMapInitializing_ now then mapInitializingToolsParams_ p
       else scanToScanToolsParams_ p)
    ∧ tools_follow_params (active_tools now)).
  { unfold active_tools. fold now in Hmi, Hs2s. rewrite Hmi, Hs2s.
    destruct (isMapInitializing_ now) eqn:Hnow; [|tauto].
    destruct Hconf as [_ Hconf]. destruct (Hconf (Hflag eq_refl)); tauto. }
  destruct Hactive as [Hparams [Hobj Hiter]].
  split; [done|]. split; [done|]. split; [|split].
  - rewrite Hobj. apply icpObjectiveFactory_PointToPlane.
  - intros Hnow. destruct Hconf as [_ Hconf]. by destruct (Hconf (Hflag Hnow)) as (_ & _ & ?).
  - intros cloud g' tools downSampled. unfold preprocess. cbn [fst snd].
    fold tools. fold tools in Hobj. rewrite Hobj.
    by destruct (icpObjective_ (scanMatcher_ (params_ tools))).
Qed.

End ConfigurationSpec.

(** ** More on the box test and on [voxelizeAroundPosition] *)

Section NaN.

Lemma SFcompare_refl_Eq x : x ≠ S754_nan → SFcompare x x = Some Eq.
Proof.
  destruct x as [s| s| |s m e]; simpl; try destruct s; try done.
  - intros _. by rewrite Z.compare_refl, Pos.compare_cont_refl.
  - intros _. by rewrite Z.compare_refl, Pos.compare_cont_refl.
Qed.

Lemma isnan_Prim2SF (x : double) : D.isnan x = true → Prim2SF x = S754_nan.
Proof.
  unfold D.isnan, is_nan. rewrite FloatAxioms.eqb_spec. unfold SFeqb.
  destruct (Prim2SF x) as [s|s| |s m e]; [| |done|];
    by rewrite SFcompare_refl_Eq.
Qed.

(** Every [<=] with a NaN operand is false. *)
Lemma le_nan (x y : double) :
  D.isnan x = true ∨ D.isnan y = true → D.le x y = false.
Proof.
  unfold D.le. rewrite FloatAxioms.leb_spec. unfold SFleb.
  intros [Hn|Hn]; apply isnan_Prim2SF in Hn; rewrite Hn.
  - done.
  - by destruct (Prim2SF x) as [[]|[]| |[] ? ?].
Qed.

Import m545_mapping.

(** X9.  [isInside] is false as soon as a NaN is involved: a point with a
    NaN coordinate lies in no box, and a box with a NaN bound holds no
    point. *)
Theorem isInside_nan_is_outside (bbox : AxisAlignedBoundingBox) (p : Vector3d) :
  has_nan p || has_nan (min_bound_ bbox) || has_nan (max_bound_ bbox) = true →
  isInside bbox p = false.
Proof.
  unfold has_nan, isInside, D.ge.
  rewrite !orb_true_iff, !andb_false_iff. intros Hnan.
  pose proof (λ x y, le_nan x y) as Hle. unfold D.le in Hle.
  destruct_or!; auto 10.
Qed.

End NaN.

Section VoxelizeMore.

Import m545_mapping.

Variable getVoxelIdx : Vector3d -> Vector3d -> Vector3d -> Vector3d -> Vector3i.
Variable computeVoxelBounds : PointCloud -> Vector3d -> Vector3d * Vector3d.
Variable traverse : VoxelMap -> list (Vector3i * AccumulatedPoint).

Hypothesis traverse_visits_all : ∀ m, traverse m ≡ₚ map_to_list m.

Local Abbreviation voxelizeAP :=
  (voxelizeAroundPosition getVoxelIdx computeVoxelBounds traverse).
Local Abbreviation members_in := (voxel_members getVoxelIdx computeVoxelBounds).
Local Abbreviation bounds := (bounds_of computeVoxelBounds).
Local Abbreviation carved := (carved_cloud getVoxelIdx computeVoxelBounds).

(** The two ways a call returns a cloud. *)
Lemma voxelizeAroundPosition_returns voxel_size bbox cloud output :
  voxelizeAP voxel_size bbox cloud = inr output →
  (D.le voxel_size D.zero = true ∧ output = cloud)
  ∨ (D.le voxel_size D.zero = false
     ∧ ∃ keys, NoDup keys
         ∧ (∀ k, k ∈ keys ↔ members_in voxel_size bbox cloud k ≠ [])
         ∧ output = carved voxel_size bbox cloud keys).
Proof.
  intros Hres. destruct (D.le voxel_size D.zero) eqn:Hle.
  - left. split; [done|]. revert Hres. unfold voxelizeAroundPosition.
    rewrite Hle. congruence.
  - right. split; [done|].
    destruct (too_small voxel_size (bounds voxel_size cloud).1
                (bounds voxel_size cloud).2) eqn:Hsmall.
    { revert Hres. unfold voxelizeAroundPosition, bounds_of in *.
      by rewrite Hle, Hsmall. }
    destruct (voxelizeAroundPosition_carves getVoxelIdx computeVoxelBounds
                traverse traverse_visits_all voxel_size bbox cloud Hle Hsmall)
      as (keys & Hnodup & Hkeys & Hcarved).
    exists keys. split; [done|]. split; [done|]. congruence.
Qed.

Lemma length_filter_split {A} (P : A → Prop) `{!∀ x, Decision (P x)} (l : list A) :
  (length (filter P l) + length (filter (λ x, ¬ P x) l) = length l)%nat.
Proof.
  induction l as [|x l IH]; [done|].
  destruct (decide (P x)).
  - rewrite filter_cons_True, (filter_cons_False (λ x, ¬ P x)) by tauto.
    cbn. lia.
  - rewrite filter_cons_False, (filter_cons_True (λ x, ¬ P x)) by tauto.
    cbn. lia.
Qed.

Lemma filter_all {A} (P : A → Prop) `{!∀ x, Decision (P x)} (l : list A) :
  Forall P l → filter P l = l.
Proof.
  induction 1 as [|x l Hx Hl IH]; [done|].
  by rewrite filter_cons_True, IH.
Qed.

Lemma outside_inside_length bbox cloud (l : list nat) :
  (length (outside bbox cloud l)
   + length (filter (λ i, isInside bbox (at_ (points_ cloud) i) = true) l)
   = length l)%nat.
Proof.
  rewrite <- (length_filter_split
                (λ i, isInside bbox (at_ (points_ cloud) i) = true) l).
  unfold outside. rewrite Nat.add_comm. f_equal. f_equal.
  apply list_filter_iff. intros i.
  by destruct (isInside bbox (at_ (points_ cloud) i)).
Qed.

Lemma scan_indices_length cloud :
  (length (scan_indices cloud) ≤ length (points_ cloud))%nat.
Proof.
  unfold scan_indices, to_int. rewrite length_seq.
  pose proof (Z.mod_pos_bound (Z.of_nat (length (points_ cloud)) + 2 ^ 31) (2 ^ 32)).
  destruct (decide (Z.of_nat (length (points_ cloud)) < 2 ^ 31)).
  - rewrite Z.mod_small by lia. lia.
  - lia.
Qed.

(** Occupied voxels against the points in the box: no more voxels than
    points, and at least one voxel if there is a point. *)
Lemma occupied_voxels_count voxel_size bbox cloud keys :
  NoDup keys →
  (∀ k, k ∈ keys ↔ members_in voxel_size bbox cloud k ≠ []) →
  let inside := filter (λ i, isInside bbox (at_ (points_ cloud) i) = true)
                  (scan_indices cloud) in
  (length keys ≤ length inside)%nat ∧ (inside ≠ [] → keys ≠ []).
Proof.
  intros Hnodup Hkeys inside.
  set (voxel i := getVoxelIdx (at_ (points_ cloud) i)
                    (Vec3 voxel_size voxel_size voxel_size)
                    (bounds voxel_size cloud).1 (bounds voxel_size cloud).2).
  assert (Hmem : ∀ k i, i ∈ members_in voxel_size bbox cloud k
                        ↔ i ∈ inside ∧ voxel i = k).
  { intros k i. unfold voxel_members, members. subst inside.
    rewrite !list_elem_of_filter. unfold voxel. tauto. }
  split.
  - rewrite <- (length_fmap voxel inside). apply submseteq_length.
    apply NoDup_submseteq; [done|]. intros k Hk. apply Hkeys in Hk.
    destruct (members_in voxel_size bbox cloud k) as [|i ixs] eqn:E; [done|].
    assert (Hi : i ∈ members_in voxel_size bbox cloud k) by (rewrite E; left).
    apply Hmem in Hi as [Hi <-]. by apply list_elem_of_fmap_2.
  - clearbody inside. destruct inside as [|i rest]; [done|]. intros _ Hnil.
    assert (Hi : i ∈ members_in voxel_size bbox cloud (voxel i)).
    { apply Hmem. split; [left|done]. }
    assert (Hk : voxel i ∈ keys).
    { apply Hkeys. intros Hnone. rewrite Hnone in Hi. by apply not_elem_of_nil in Hi. }
    rewrite Hnil in Hk. by apply not_elem_of_nil in Hk.
Qed.

(** X10.  Whenever [voxelizeAroundPosition] returns a cloud, it has no more
    points than the input. *)
Theorem voxelizeAroundPosition_never_adds_points voxel_size bbox cloud output :
  voxelizeAroundPosition getVoxelIdx computeVoxelBounds traverse
    voxel_size bbox cloud = inr output →
  (length (points_ output) ≤ length (points_ cloud))%nat.
Proof.
  intros Hres.
  destruct (voxelizeAroundPosition_returns _ _ _ _ Hres)
    as [[_ ->]|(_ & keys & Hnodup & Hkeys & ->)]; [done|].
  unfold carved_cloud. cbn [points_]. rewrite length_app, !length_fmap.
  pose proof (proj1 (occupied_voxels_count _ _ _ _ Hnodup Hkeys)).
  pose proof (outside_inside_length bbox cloud (scan_indices cloud)).
  pose proof (scan_indices_length cloud). cbn zeta in *. lia.
Qed.

(** X11.  For a voxel size that is not [<= 0], the cloud returned is well
    formed: it has one normal per point if the input has normals and no
    normals otherwise, and likewise for colors. *)
Theorem voxelizeAroundPosition_aligns_attributes voxel_size bbox cloud output :
  D.le voxel_size D.zero = false →
  voxelizeAP voxel_size bbox cloud = inr output →
  length (normals_ output)
  = (if HasNormals cloud then length (points_ output) else 0%nat)
  ∧ length (colors_ output)
    = (if HasColors cloud then length (points_ output) else 0%nat).
Proof.
  intros Hpos Hres.
  destruct (voxelizeAroundPosition_returns _ _ _ _ Hres)
    as [[Hle _]|(_ & keys & _ & _ & ->)]; [congruence|].
  unfold carved_cloud. cbn [points_ normals_ colors_].
  destruct (HasNormals cloud), (HasColors cloud);
    by rewrite ?length_app, ?length_fmap.
Qed.

(** X12.  On a cloud whose size is an [int], the cloud returned is empty
    exactly when the input is: down-sampling never loses the last point. *)
Theorem voxelizeAroundPosition_keeps_nonempty voxel_size bbox cloud output :
  Z.of_nat (length (points_ cloud)) ≤ INT_MAX →
  voxelizeAP voxel_size bbox cloud = inr output →
  IsEmpty output = IsEmpty cloud.
Proof.
  intros Hlen Hres.
  destruct (voxelizeAroundPosition_returns _ _ _ _ Hres)
    as [[_ ->]|(_ & keys & Hnodup & Hkeys & ->)]; [done|].
  unfold IsEmpty, HasPoints, carved_cloud. cbn [points_]. f_equal.
  rewrite length_app, !length_fmap.
  destruct (occupied_voxels_count _ _ _ _ Hnodup Hkeys) as [Hle Hsome].
  pose proof (outside_inside_length bbox cloud (scan_indices cloud)) as Hsplit.
  cbn zeta in Hle, Hsome.
  assert (Hone : length (filter (λ i, isInside bbox (at_ (points_ cloud) i) = true)
                           (scan_indices cloud)) ≠ 0%nat → length keys ≠ 0%nat).
  { intros Hin Hk. apply Hsome; [|by apply nil_length_inv].
    intros Hnil. by rewrite Hnil in Hin. }
  assert (Hall : length (scan_indices cloud) = length (points_ cloud))
    by by rewrite (scan_indices_all cloud Hlen), length_seq.
  destruct (Nat.ltb_spec 0 (length (outside bbox cloud (scan_indices cloud))
                            + length keys)),
           (Nat.ltb_spec 0 (length (points_ cloud))); lia.
Qed.

(** X13.  If no point of the cloud lies in the box, the cloud passes
    through: the points come back as they are, in their order, with the
    normals and colors that the cloud has. *)
Theorem voxelizeAroundPosition_outside_passes_through voxel_size bbox cloud :
  D.lt D.zero voxel_size = true →
  too_small voxel_size (bounds voxel_size cloud).1 (bounds voxel_size cloud).2 = false →
  Z.of_nat (length (points_ cloud)) ≤ INT_MAX →
  Forall (λ p, isInside bbox p = false) (points_ cloud) →
  voxelizeAP voxel_size bbox cloud
  = inr (mkPointCloud (points_ cloud)
           (if HasNormals cloud then normals_ cloud else [])
           (if HasColors cloud then colors_ cloud else [])).
Proof.
  intros Hpos Hfit Hlen Hout.
  destruct (voxelizeAroundPosition_output getVoxelIdx computeVoxelBounds traverse
              traverse_visits_all voxel_size bbox cloud Hpos Hfit Hlen)
    as (keys & Hnodup & Hkeys & Hres).
  assert (Hnone : keys = []).
  { destruct keys as [|k keys]; [done|]. exfalso.
    assert (Hk : k ∈ k :: keys) by left. apply Hkeys in Hk.
    destruct (in_voxel _ _ _ _ _ k) as [|i ixs] eqn:E; [done|].
    assert (Hi : i ∈ in_voxel getVoxelIdx computeVoxelBounds voxel_size bbox cloud k)
      by (rewrite E; left).
    apply elem_of_in_voxel in Hi as (Hlt & Hin & _).
    rewrite Forall_forall in Hout.
    rewrite (Hout (at_ (points_ cloud) i)) in Hin; [done|].
    apply list_elem_of_In, nth_In. lia. }
  rewrite Hres, Hnone. cbn [fmap list_fmap]. rewrite !app_nil_r.
  assert (Hzip : ∀ attributes, length attributes = length (points_ cloud) →
            outside_attributes bbox (points_ cloud) attributes = attributes).
  { intros attributes Ha. unfold outside_attributes.
    rewrite filter_all.
    - apply snd_zip. lia.
    - apply Forall_forall. intros [p a] Hpa. cbn.
      rewrite Forall_forall in Hout. apply Hout.
      by apply elem_of_zip_l in Hpa. }
  f_equal. f_equal.
  - unfold outside_points. by apply filter_all.
  - unfold HasNormals. destruct (HasPoints cloud); [|done]. cbn [andb].
    destruct (Nat.eqb_spec (length (normals_ cloud)) (length (points_ cloud)));
      [by apply Hzip|done].
  - unfold HasColors. destruct (HasPoints cloud); [|done]. cbn [andb].
    destruct (Nat.eqb_spec (length (colors_ cloud)) (length (points_ cloud)));
      [by apply Hzip|done].
Qed.

Lemma valid_normals_all cloud (ixs : list nat) :
  length (normals_ cloud) = length (points_ cloud) →
  Forall (λ n, normal_is_valid n = true) (normals_ cloud) →
  Forall (λ i, (i < length (points_ cloud))%nat) ixs →
  valid_normals cloud ixs = at_ (normals_ cloud) <$> ixs.
Proof.
  intros Hlen Hvalid Hixs. unfold valid_normals. apply filter_all.
  apply Forall_fmap. eapply Forall_impl; [exact Hixs|]. intros i Hi. cbn.
  rewrite Forall_forall in Hvalid. apply Hvalid.
  apply list_elem_of_In, nth_In. cbn beta in Hi. lia.
Qed.

(** X18.  If the cloud has normals and none of them holds a NaN, the normal
    put out for an occupied voxel is the mean of the normals of its points:
    their sum over their number. *)
Theorem voxel_normal_is_the_mean_without_nan voxel_size bbox cloud :
  D.lt D.zero voxel_size = true →
  too_small voxel_size (bounds voxel_size cloud).1 (bounds voxel_size cloud).2 = false →
  Z.of_nat (length (points_ cloud)) ≤ INT_MAX →
  HasNormals cloud = true →
  Forall (λ n, normal_is_valid n = true) (normals_ cloud) →
  let voxel := in_voxel getVoxelIdx computeVoxelBounds voxel_size bbox cloud in
  ∃ (output : PointCloud) (keys : list Vector3i),
    voxelizeAP voxel_size bbox cloud = inr output
    ∧ NoDup keys
    ∧ (∀ k, k ∈ keys ↔ voxel k ≠ [])
    ∧ normals_ output
      = outside_attributes bbox (points_ cloud) (normals_ cloud)
        ++ ((λ k, vdiv (vsum (at_ (normals_ cloud) <$> voxel k))
                       (D.of_int (Z.of_nat (length (voxel k))))) <$> keys)
    ∧ (∀ k, mean_of_valid_normals cloud (voxel k)
            = vdiv (vsum (at_ (normals_ cloud) <$> voxel k))
                   (D.of_int (Z.of_nat (length (voxel k))))).
Proof.
  intros Hpos Hfit Hlen Hn Hvalid voxel.
  destruct (voxelizeAroundPosition_output getVoxelIdx computeVoxelBounds traverse
              traverse_visits_all voxel_size bbox cloud Hpos Hfit Hlen)
    as (keys & Hnodup & Hkeys & Hres).
  assert (Hall : ∀ k, valid_normals cloud (voxel k) = at_ (normals_ cloud) <$> voxel k).
  { intros k. apply valid_normals_all; [|done|].
    - unfold HasNormals in Hn. apply andb_true_iff in Hn as [_ Hn].
      by apply Nat.eqb_eq in Hn.
    - apply Forall_forall. intros i Hi. by apply elem_of_in_voxel in Hi as [? _]. }
  eexists _, keys. split; [exact Hres|]. split; [done|]. split; [done|].
  cbn [normals_]. rewrite Hn. split.
  - f_equal. apply list_fmap_ext. intros _ k _.
    rewrite GetAverageNormal_add_all by done.
    unfold summed_normal_over_points. by rewrite Hall.
  - intros k. unfold mean_of_valid_normals. by rewrite Hall, length_fmap.
Qed.

(** X19.  Every accumulator that the first loop leaves in the map of voxels
    has counted at least one point and at most [INT_MAX]: the averages that
    the second loop takes never divide by zero, and the [int] counter does
    not overflow. *)
Theorem voxel_accumulators_hold_points voxel_size bbox cloud k a :
  (fold_left
     (scan_point getVoxelIdx bbox cloud (Vec3 voxel_size voxel_size voxel_size)
        (bounds voxel_size cloud).1 (bounds voxel_size cloud).2)
     (scan_indices cloud) (∅, emptyCloud)).1 !! k = Some a →
  1 ≤ num_of_points_ a ≤ INT_MAX
  ∧ num_of_points_ a = Z.of_nat (length (members_in voxel_size bbox cloud k)).
Proof.
  rewrite scan_fold_lookup. cbn [fst]. rewrite lookup_empty. cbn [default].
  fold (members_in voxel_size bbox cloud k).
  destruct (members_in voxel_size bbox cloud k) as [|i ixs] eqn:E; [done|].
  intros [= <-]. rewrite add_all_num. unfold AddPoint.
  cbn [num_of_points_ AccumulatedPoint_new].
  split; [|cbn [length]; lia].
  assert (Hle : (length (i :: ixs) ≤ length (scan_indices cloud))%nat).
  { rewrite <- E. unfold voxel_members, members. apply length_filter. }
  pose proof (scan_indices_length cloud) as Hscan.
  assert (Hint : Z.of_nat (length (scan_indices cloud)) ≤ INT_MAX).
  { unfold scan_indices, to_int, INT_MAX. rewrite length_seq.
    pose proof (Z.mod_pos_bound (Z.of_nat (length (points_ cloud)) + 2 ^ 31)
                  (2 ^ 32)). lia. }
  cbn [length] in *. unfold INT_MAX in *. lia.
Qed.

End VoxelizeMore.

Section VoxelizeOrder.

Import m545_mapping.

Variable getVoxelIdx : Vector3d -> Vector3d -> Vector3d -> Vector3d -> Vector3i.
Variable computeVoxelBounds : PointCloud -> Vector3d -> Vector3d * Vector3d.
Variables traverse1 traverse2 : VoxelMap -> list (Vector3i * AccumulatedPoint).

Hypothesis traverse1_visits_all : ∀ m, traverse1 m ≡ₚ map_to_list m.
Hypothesis traverse2_visits_all : ∀ m, traverse2 m ≡ₚ map_to_list m.

(** X14.  The order in which the map of voxels is iterated only reorders the
    voxel part of the output: two iteration orders give the same
    pass-through points, and voxel points, normals and colors that are the
    same list of voxels taken in two orders. *)
Theorem voxelizeAroundPosition_order_only_permutes voxel_size bbox cloud out1 out2 :
  voxelizeAroundPosition getVoxelIdx computeVoxelBounds traverse1
    voxel_size bbox cloud = inr out1 →
  voxelizeAroundPosition getVoxelIdx computeVoxelBounds traverse2
    voxel_size bbox cloud = inr out2 →
  out1 = out2
  ∨ ∃ keys1 keys2,
      keys1 ≡ₚ keys2
      ∧ out1 = carved_cloud getVoxelIdx computeVoxelBounds voxel_size bbox cloud keys1
      ∧ out2 = carved_cloud getVoxelIdx computeVoxelBounds voxel_size bbox cloud keys2
      ∧ points_ out1 ≡ₚ points_ out2
      ∧ normals_ out1 ≡ₚ normals_ out2
      ∧ colors_ out1 ≡ₚ colors_ out2.
Proof.
  intros H1 H2.
  destruct (voxelizeAroundPosition_returns _ _ _ traverse1_visits_all _ _ _ _ H1)
    as [[Hle ->]|(Hle & keys1 & Hnodup1 & Hkeys1 & ->)];
  destruct (voxelizeAroundPosition_returns _ _ _ traverse2_visits_all _ _ _ _ H2)
    as [[Hle' ->]|(Hle' & keys2 & Hnodup2 & Hkeys2 & ->)];
    try congruence; [by left|].
  right. exists keys1, keys2.
  assert (Hperm : keys1 ≡ₚ keys2).
  { apply NoDup_Permutation; [done..|]. intros k. by rewrite Hkeys1, Hkeys2. }
  split; [done|]. split; [done|]. split; [done|].
  unfold carved_cloud. cbn [points_ normals_ colors_].
  split; [by rewrite Hperm|].
  destruct (HasNormals cloud), (HasColors cloud); by rewrite ?Hperm.
Qed.

End VoxelizeOrder.

(** ** Square roots, and [computePointCloudDistance] *)

Section SquareRoot.

Lemma shr_1_nonneg mrs : 0 <= shr_m mrs → 0 <= shr_m (shr_1 mrs).
Proof.
  destruct mrs as [m r s]. cbn. destruct m as [|[p|p|]|[p|p|]]; cbn; lia.
Qed.

Lemma iter_pos_shr_1_nonneg p mrs :
  0 <= shr_m mrs → 0 <= shr_m (SpecFloat.iter_pos shr_1 p mrs).
Proof.
  revert mrs. induction p as [p IH|p IH|]; intros mrs Hm; cbn.
  - apply IH, IH, shr_1_nonneg, Hm.
  - apply IH, IH, Hm.
  - apply shr_1_nonneg, Hm.
Qed.

Lemma shr_fexp_nonneg prec emax m e l :
  0 <= m → 0 <= shr_m (fst (shr_fexp prec emax m e l)).
Proof.
  intros Hm. unfold shr_fexp, shr.
  assert (0 <= shr_m (shr_record_of_loc m l)) by (destruct l as [|[]]; exact Hm).
  destruct (fexp prec emax (Zdigits2 m + e) - e); cbn; try assumption.
  apply iter_pos_shr_1_nonneg; assumption.
Qed.

Lemma round_nearest_even_nonneg m l : 0 <= m → 0 <= round_nearest_even m l.
Proof.
  intros Hm. destruct l as [|[]]; cbn; try lia. destruct (Z.even m); lia.
Qed.

Lemma binary_round_aux_not_nan prec emax m e l :
  0 <= m → binary_round_aux prec emax false m e l ≠ S754_nan.
Proof.
  intros Hm. unfold binary_round_aux.
  pose proof (shr_fexp_nonneg prec emax m e l Hm) as H1.
  destruct (shr_fexp prec emax m e l) as [mrs' e'] eqn:E1. cbn in H1.
  pose proof (shr_fexp_nonneg prec emax
                (round_nearest_even (shr_m mrs') (loc_of_shr_record mrs')) e' loc_Exact
                (round_nearest_even_nonneg _ _ H1)) as H2.
  destruct (shr_fexp prec emax _ e' loc_Exact) as [mrs'' e''] eqn:E2. cbn in H2.
  destruct (shr_m mrs'') as [|p|p]; try discriminate; try lia.
  destruct (Z.leb e'' (emax - prec)); discriminate.
Qed.

Lemma binary_round_aux_sign prec emax m e l :
  0 <= m →
  match binary_round_aux prec emax false m e l with
  | S754_zero s | S754_infinity s | S754_finite s _ _ => s = false
  | S754_nan => False
  end.
Proof.
  intros Hm. pose proof (binary_round_aux_not_nan prec emax m e l Hm) as Hn.
  revert Hn. unfold binary_round_aux.
  destruct (shr_fexp prec emax m e l) as [mrs' e'].
  destruct (shr_fexp prec emax _ e' loc_Exact) as [mrs'' e''].
  destruct (shr_m mrs'') as [|p|p]; try easy.
  destruct (Z.leb e'' (emax - prec)); easy.
Qed.

Lemma SFsqrt_core_nonneg prec emax m e :
  0 <= fst (fst (SFsqrt_core_binary prec emax (Zpos m) e)).
Proof.
  unfold SFsqrt_core_binary.
  set (m' := match e - 2 * _ with Zpos _ => _ | Z0 => _ | Zneg _ => _ end).
  pose proof (Z.sqrtrem_spec m') as Hs.
  destruct (Z.sqrtrem m') as [q r]. cbn.
  assert (0 <= m').
  { unfold m'. destruct (e - 2 * _); try lia. apply Z.shiftl_nonneg. lia. }
  specialize (Hs H). lia.
Qed.

(** The square root of a double that is [>= 0] is [>= 0] (and no NaN). *)
Lemma sqrt_nonneg (d : double) :
  D.le D.zero d = true → D.le D.zero (D.sqrt d) = true.
Proof.
  unfold D.le, D.sqrt, D.zero.
  rewrite !FloatAxioms.leb_spec, FloatAxioms.sqrt_spec. unfold SFleb, SF64sqrt.
  change (Prim2SF 0) with (S754_zero false).
  destruct (Prim2SF d) as [s|s| |s m e]; cbn; try destruct s; try easy.
  intros _.
  pose proof (SFsqrt_core_nonneg prec emax m e) as Hq.
  destruct (SFsqrt_core_binary prec emax (Z.pos m) e) as [[q e'] l]. cbn in Hq.
  pose proof (binary_round_aux_sign prec emax q e' l Hq) as Hs.
  destruct (binary_round_aux prec emax false q e' l) as [s|s| |s m1 e1];
    try easy; subst s; reflexivity.
Qed.

End SquareRoot.

Section ComputePointCloudDistanceSpec.

Import m545_mapping.

Variable SearchKNN :
  PointCloud -> Vector3d -> Z -> list Z -> list double -> Z * list Z * list double.

Local Abbreviation search := (search_nearest SearchKNN).
Local Abbreviation entry := (nearest_entry SearchKNN).

(** A loop that writes slot [i] at iteration [i] fills the first slots in
    order and leaves the others. *)
Lemma fill_slots {A B} (f : nat → A) (g : nat → B) (k : nat)
    (v1 : list A) (v2 : list B) :
  (k ≤ length v1)%nat → (k ≤ length v2)%nat →
  fold_left (λ st i, (<[i := f i]> st.1, <[i := g i]> st.2)) (seq 0 k) (v1, v2)
  = ((f <$> seq 0 k) ++ drop k v1, (g <$> seq 0 k) ++ drop k v2).
Proof.
  induction k as [|k IH]; intros H1 H2; [done|].
  rewrite seq_S, fold_left_app, IH by lia. cbn [fold_left fst snd plus].
  rewrite !fmap_app. cbn [fmap list_fmap].
  rewrite !insert_app_r_alt by (rewrite length_fmap, length_seq; lia).
  rewrite !length_fmap, !length_seq, Nat.sub_diag, <- !app_assoc.
  destruct (drop k v1) as [|a d1] eqn:E1.
  { apply (f_equal length) in E1. rewrite length_drop in E1. cbn in E1. lia. }
  destruct (drop k v2) as [|b d2] eqn:E2.
  { apply (f_equal length) in E2. rewrite length_drop in E2. cbn in E2. lia. }
  cbn. rewrite <- (Nat.add_1_r k), <- !drop_drop, E1, E2. done.
Qed.

Lemma fmap_nth_seq {A B} (h : A → B) (d : A) (l : list A) :
  (λ i, h (nth i l d)) <$> seq 0 (length l) = h <$> l.
Proof.
  induction l as [|x l IH] using rev_ind; [done|].
  rewrite length_app. cbn [length]. rewrite Nat.add_1_r, seq_S, !fmap_app.
  cbn. rewrite nth_middle. f_equal. rewrite <- IH.
  apply list_fmap_ext. intros j i Hi. apply lookup_seq in Hi as [Hij Hlt].
  cbn in Hij. subst i. cbn. by rewrite app_nth1 by lia.
Qed.

(** On a vector of ids whose size is an [int], the loop runs the search for
    every id, in order. *)
Lemma distance_loop_all reference cloud (ids : list Z) :
  Z.of_nat (length ids) ≤ INT_MAX →
  distance_loop SearchKNN reference cloud ids
  = ((λ idx, (entry reference cloud idx).1) <$> ids,
     (λ idx, (entry reference cloud idx).2) <$> ids).
Proof.
  intros Hlen. unfold distance_loop, to_int, INT_MAX in *.
  rewrite Z.mod_small by lia.
  replace (Z.to_nat (Z.of_nat (length ids) + 2 ^ 31 - 2 ^ 31)) with (length ids)
    by lia.
  rewrite (fill_slots (λ i, (entry reference cloud (nth i ids 0)).1)
             (λ i, (entry reference cloud (nth i ids 0)).2))
    by by rewrite repeat_length.
  rewrite !drop_ge, !app_nil_r by by rewrite repeat_length.
  by rewrite (fmap_nth_seq (λ idx, (entry reference cloud idx).1)),
             (fmap_nth_seq (λ idx, (entry reference cloud idx).2)).
Qed.

(** X15.  [computePointCloudDistance] on ids of points of the reference that
    fit an [int], and squared distances that are [>= 0]: the ids returned are
    the ids for which [SearchKNN] returned a value other than 0, in input
    order, and the distances returned are the square roots of the squared
    distances the search left, one per returned id; an id for which the
    search returned 0 leaves no trace in either vector.  The test of line
    221 is [!= 0]: a negative value returned by the search counts like a
    positive one, and its id is returned with the square root of what the
    output vector holds.  Where the search returns no negative value, the
    ids returned are the ids for which it returned a neighbour. *)
Theorem computePointCloudDistance_aligned reference cloud (ids : list Z) :
  Z.of_nat (length ids) ≤ INT_MAX →
  Forall (λ idx, 0 ≤ idx ≤ INT_MAX
                 ∧ idx < Z.of_nat (length (points_ reference))) ids →
  Forall (λ idx, (search reference cloud idx).1.1 ≠ 0 →
                 D.le D.zero (nth 0 (search reference cloud idx).2 D.zero) = true)
    ids →
  let answered := filter (λ idx, (search reference cloud idx).1.1 ≠ 0) ids in
  computePointCloudDistance SearchKNN reference cloud ids
  = ((λ idx, D.sqrt (nth 0 (search reference cloud idx).2 D.zero)) <$> answered,
     answered)
  ∧ length (computePointCloudDistance SearchKNN reference cloud ids).1
    = length (computePointCloudDistance SearchKNN reference cloud ids).2
  ∧ (∀ idx, idx ∈ (computePointCloudDistance SearchKNN reference cloud ids).2
            ↔ idx ∈ ids ∧ (search reference cloud idx).1.1 ≠ 0)
  ∧ (∀ idx, idx ∈ ids → (search reference cloud idx).1.1 < 0 →
            idx ∈ (computePointCloudDistance SearchKNN reference cloud ids).2)
  ∧ (Forall (λ idx, 0 ≤ (search reference cloud idx).1.1) ids →
     (computePointCloudDistance SearchKNN reference cloud ids).2
     = filter (λ idx, 0 < (search reference cloud idx).1.1) ids).
Proof.
  intros Hlen Hids Hdist answered.
  assert (Heq : computePointCloudDistance SearchKNN reference cloud ids
    = ((λ idx, D.sqrt (nth 0 (search reference cloud idx).2 D.zero)) <$> answered,
       answered)).
  { unfold computePointCloudDistance. rewrite distance_loop_all by done.
    cbn [fst snd]. unfold answered. clear Hlen answered.
    induction ids as [|idx ids IH]; [done|].
    apply Forall_cons in Hids as [[Hidx _] Hids].
    apply Forall_cons in Hdist as [Hd Hdist].
    specialize (IH Hids Hdist). injection IH as IHd IHi.
    cbn [fmap list_fmap]. unfold nearest_entry at 1 3.
    destruct ((search reference cloud idx).1.1 =? 0) eqn:Hfound; cbn [negb fst snd].
    - apply Z.eqb_eq in Hfound.
      rewrite (filter_cons_False (λ x, D.ge x D.zero = true)) by done.
      rewrite (filter_cons_False (λ x, 0 ≤ x)) by lia.
      rewrite (filter_cons_False _ idx) by tauto.
      by rewrite IHd, IHi.
    - apply Z.eqb_neq in Hfound.
      assert (Hint : to_int idx = idx).
      { unfold to_int, INT_MAX in *. rewrite Z.mod_small by lia. lia. }
      rewrite (filter_cons_True (λ x, D.ge x D.zero = true))
        by (apply sqrt_nonneg, Hd, Hfound).
      rewrite (filter_cons_True (λ x, 0 ≤ x)) by lia.
      rewrite (filter_cons_True _ idx) by done.
      cbn [fmap list_fmap]. by rewrite IHd, IHi, Hint. }
  assert (Hmem : ∀ idx,
    idx ∈ (computePointCloudDistance SearchKNN reference cloud ids).2
    ↔ idx ∈ ids ∧ (search reference cloud idx).1.1 ≠ 0).
  { intros idx. rewrite Heq. cbn [snd]. unfold answered.
    rewrite list_elem_of_filter. tauto. }
  split; [done|]. split; [rewrite Heq; cbn [fst snd]; by rewrite length_fmap|].
  split; [done|]. split.
  - intros idx Hin Hneg. apply Hmem. split; [done|lia].
  - intros Hpos. rewrite Heq. cbn [snd]. unfold answered. clear -Hpos.
    induction Hpos as [|idx ids Hidx Hpos IH]; [done|].
    destruct (decide ((search reference cloud idx).1.1 = 0)) as [Hz|Hz].
    + rewrite (filter_cons_False _ idx) by tauto.
      rewrite (filter_cons_False _ idx) by lia. done.
    + rewrite (filter_cons_True _ idx) by done.
      rewrite (filter_cons_True _ idx) by lia. by rewrite IH.
Qed.

End ComputePointCloudDistanceSpec.

(** ** [boundingBoxAroundPosition] *)

Section BoundingBox.

Import m545_mapping.

Lemma SFadd_zero_compare_r a b :
  SFcompare a (SF64add (S754_zero false) b) = SFcompare a b.
Proof.
  destruct b as [[]|[]| |[] m e]; try done; by destruct a as [[]|[]| |[] ? ?].
Qed.

Lemma SFadd_zero_compare_l a b :
  SFcompare (SF64add (S754_zero false) b) a = SFcompare b a.
Proof.
  destruct b as [[]|[]| |[] m e]; try done; by destruct a as [[]|[]| |[] ? ?].
Qed.

(** Adding to zero does not change how a double compares. *)
Lemma le_zero_add (a b : double) :
  D.le a (D.add D.zero b) = D.le a b ∧ D.le (D.add D.zero b) a = D.le b a.
Proof.
  unfold D.le, D.add, D.zero. rewrite !FloatAxioms.leb_spec, FloatAxioms.add_spec.
  change (Prim2SF 0) with (S754_zero false). unfold SFleb.
  by rewrite SFadd_zero_compare_r, SFadd_zero_compare_l.
Qed.

(** X16.  With the origin at zero (the default), the box that
    [boundingBoxAroundPosition] builds holds exactly the points between
    [low] and [high]: [isInside] gives the same answer as for the box with
    the bounds [low] and [high]. *)
Theorem boundingBoxAroundPosition_at_zero (low high p : Vector3d) :
  isInside (boundingBoxAroundPosition low high Vzero) p
  = isInside (mkBox low high) p.
Proof.
  unfold isInside, boundingBoxAroundPosition, D.ge, vadd, Vzero. cbn.
  fold (D.add D.zero (vx low)). fold (D.add D.zero (vy low)).
  fold (D.add D.zero (vz low)). fold (D.add D.zero (vx high)).
  fold (D.add D.zero (vy high)). fold (D.add D.zero (vz high)).
  repeat match goal with
         | |- context [PrimFloat.leb ?a ?b] => fold (D.le a b)
         end.
  by rewrite !(proj1 (le_zero_add _ _)), !(proj2 (le_zero_add _ _)).
Qed.

End BoundingBox.

(** ** The further properties on concrete inputs *)

Section MoreRuns.

Import m545_mapping o3d_slam Demo.

Lemma traverse_backwards_enumerates (m : VoxelMap) :
  Voxel.traverse_backwards m ≡ₚ map_to_list m.
Proof. apply reverse_Permutation. Qed.

Lemma newest_pose_stays_current_witness :
  newest_pose_is_current (fresh 0.5)
  ∧ newest_pose_is_current
      (feed (fresh 0.5) 0
         [(two_points, 1); (two_points, 2); (one_point, 3); (two_points, 1)]).1.2.
Proof.
  assert (H0 : newest_pose_is_current (fresh 0.5)) by (by left).
  split; [exact H0|].
  exact (newest_pose_stays_current (H := backend) (fresh 0.5) 0 _ H0).
Defined.

Lemma pose_times_stay_sorted_witness :
  Sorted Z.le (pose_times (getBuffer (started 0.5)))
  ∧ newest_pose_is_current (started 0.5)
  ∧ IsEmpty (cloudPrev_ (started 0.5)) = false
  ∧ Sorted Z.le
      (pose_times (getBuffer (addRangeScan (started 0.5) two_points 2 0).1.2)).
Proof.
  assert (H1 : Sorted Z.le (pose_times (getBuffer (started 0.5))))
    by (repeat constructor).
  assert (H2 : newest_pose_is_current (started 0.5)) by (by right).
  split; [exact H1|]. split; [exact H2|]. split; [reflexivity|].
  exact (pose_times_stay_sorted (H := backend) (started 0.5) two_points 2 0
           H1 H2 (or_introl eq_refl)).
Defined.

Lemma setInitialTransform_idle_in_steady_state_witness :
  isMapInitializing_ tracking = false
  ∧ feed (setInitialTransform (product Identity Identity) tracking) 1
      [(two_points, 3); (one_point, 4)]
    = ((feed tracking 1 [(two_points, 3); (one_point, 4)]).1.1,
       setInitialTransform (product Identity Identity)
         (feed tracking 1 [(two_points, 3); (one_point, 4)]).1.2,
       (feed tracking 1 [(two_points, 3); (one_point, 4)]).2).
Proof.
  split; [reflexivity|].
  exact (setInitialTransform_idle_in_steady_state (H := backend)
           (product Identity Identity) tracking 1 _ eq_refl).
Defined.

Lemma configured_tools_stay_in_force_witness :
  setParameters unit (λ _, tt) keepAllFactory (parameters true)
    (LidarOdometry_new (λ c, c) (fresh 0.5))
  = (None, configured true)
  ∧ isMapInitializing_
      (feed (configured true) 0 [(two_points, 1); (two_points, 2)]).1.2 = false
  ∧ params_ (active_tools
               (feed (configured true) 0 [(two_points, 1); (two_points, 2)]).1.2)
    = scanToScanToolsParams_ (parameters true)
  ∧ tools_follow_params
      (active_tools
         (feed (configured true) 0 [(two_points, 1); (two_points, 2)]).1.2)
  ∧ (preprocess
       (active_tools
          (feed (configured true) 0 [(two_points, 1); (two_points, 2)]).1.2)
       one_point 7).1
    = one_point
  ∧ tools_icpObjective_ (active_tools (configured true))
    = TransformationEstimationPointToPlane
  ∧ (preprocess (active_tools (configured true)) one_point 7).1
    = NormalizeNormals (m545_mapping.estimateNormals EstimateNormals 10 one_point).
Proof.
  assert (H0 : setParameters unit (λ _, tt) keepAllFactory (parameters true)
                 (LidarOdometry_new (λ c, c) (fresh 0.5))
               = (None, configured true)) by reflexivity.
  split; [exact H0|]. split; [reflexivity|].
  destruct (configured_tools_stay_in_force (H := backend) unit (λ _, tt)
              keepAllFactory (parameters true) _ _ (0 : @Rng backend)
              [(two_points, 1); (two_points, 2)] H0)
    as (Hparams & Hfollow & _ & _ & Hpre).
  split; [exact Hparams|]. split; [exact Hfollow|].
  split; [exact (Hpre one_point 7)|]. split; [reflexivity|].
  destruct (configured_tools_stay_in_force (H := backend) unit (λ _, tt)
              keepAllFactory (parameters true) _ _ (0 : @Rng backend) [] H0)
    as (_ & _ & _ & _ & Hfirst).
  exact (Hfirst one_point 7).
Defined.

Lemma rejected_scans_leave_the_trajectory_witness :
  Forall (λ accepted, accepted = false)
    (feed tracking 1 [(one_point, 3); (two_points, 1)]).1.1
  ∧ getBuffer (feed tracking 1 [(one_point, 3); (two_points, 1)]).1.2
    = getBuffer tracking
  ∧ lastMeasurementTimestamp_ (feed tracking 1 [(one_point, 3); (two_points, 1)]).1.2
    = 2.
Proof.
  assert (H0 : Forall (λ accepted, accepted = false)
                 (feed tracking 1 [(one_point, 3); (two_points, 1)]).1.1)
    by (repeat constructor).
  split; [exact H0|].
  destruct (rejected_scans_leave_the_trajectory (H := backend) tracking
              (1 : @Rng backend) _ H0) as (Hb & _ & Ht & _).
  split; [exact Hb | exact Ht].
Defined.

Lemma isInside_nan_is_outside_witness :
  has_nan (Vec3 0 nan 0) || has_nan (min_bound_ Voxel.unit_box)
    || has_nan (max_bound_ Voxel.unit_box) = true
  ∧ isInside Voxel.unit_box (Vec3 0 nan 0) = false.
Proof.
  split; [reflexivity|].
  apply (isInside_nan_is_outside Voxel.unit_box (Vec3 0 nan 0)). reflexivity.
Defined.

Lemma voxelizeAroundPosition_never_adds_points_witness :
  Voxel.voxelizeAroundPosition 1 Voxel.unit_box Voxel.line_cloud
  = inr (mkPointCloud [Vec3 4 0 0; Vec3 0.125 0 0]
           [Vec3 1 0 0; Vec3 0 0.5 0.5] [])
  ∧ (2 ≤ length (points_ Voxel.line_cloud))%nat.
Proof.
  assert (H0 : Voxel.voxelizeAroundPosition 1 Voxel.unit_box Voxel.line_cloud
               = inr (mkPointCloud [Vec3 4 0 0; Vec3 0.125 0 0]
                        [Vec3 1 0 0; Vec3 0 0.5 0.5] []))
    by (vm_compute; reflexivity).
  split; [exact H0|].
  exact (voxelizeAroundPosition_never_adds_points Voxel.getVoxelIdx
           Voxel.computeVoxelBounds Voxel.traverse traverse_enumerates
           1 Voxel.unit_box Voxel.line_cloud _ H0).
Defined.

Lemma voxelizeAroundPosition_aligns_attributes_witness :
  D.le 1 D.zero = false
  ∧ Voxel.voxelizeAroundPosition 1 Voxel.unit_box Voxel.line_cloud
    = inr (mkPointCloud [Vec3 4 0 0; Vec3 0.125 0 0]
             [Vec3 1 0 0; Vec3 0 0.5 0.5] [])
  ∧ length [Vec3 1 0 0; Vec3 0 0.5 0.5] = 2%nat
  ∧ length (@nil Vector3d) = 0%nat.
Proof.
  assert (H0 : Voxel.voxelizeAroundPosition 1 Voxel.unit_box Voxel.line_cloud
               = inr (mkPointCloud [Vec3 4 0 0; Vec3 0.125 0 0]
                        [Vec3 1 0 0; Vec3 0 0.5 0.5] []))
    by (vm_compute; reflexivity).
  split; [reflexivity|]. split; [exact H0|].
  exact (voxelizeAroundPosition_aligns_attributes Voxel.getVoxelIdx
           Voxel.computeVoxelBounds Voxel.traverse traverse_enumerates
           1 Voxel.unit_box Voxel.line_cloud _ eq_refl H0).
Defined.

Lemma voxelizeAroundPosition_keeps_nonempty_witness :
  Z.of_nat (length (points_ Voxel.line_cloud)) ≤ INT_MAX
  ∧ Voxel.voxelizeAroundPosition 1 Voxel.unit_box Voxel.line_cloud
    = inr (mkPointCloud [Vec3 4 0 0; Vec3 0.125 0 0]
             [Vec3 1 0 0; Vec3 0 0.5 0.5] [])
  ∧ IsEmpty (mkPointCloud [Vec3 4 0 0; Vec3 0.125 0 0]
               [Vec3 1 0 0; Vec3 0 0.5 0.5] [])
    = IsEmpty Voxel.line_cloud.
Proof.
  assert (H0 : Voxel.voxelizeAroundPosition 1 Voxel.unit_box Voxel.line_cloud
               = inr (mkPointCloud [Vec3 4 0 0; Vec3 0.125 0 0]
                        [Vec3 1 0 0; Vec3 0 0.5 0.5] []))
    by (vm_compute; reflexivity).
  assert (H1 : Z.of_nat (length (points_ Voxel.line_cloud)) ≤ INT_MAX)
    by (by vm_compute).
  split; [exact H1|]. split; [exact H0|].
  exact (voxelizeAroundPosition_keeps_nonempty Voxel.getVoxelIdx
           Voxel.computeVoxelBounds Voxel.traverse traverse_enumerates
           1 Voxel.unit_box Voxel.line_cloud _ H1 H0).
Defined.

Lemma voxelizeAroundPosition_outside_passes_through_witness :
  D.lt D.zero 0.125 = true
  ∧ too_small 0.125 (Voxel.GetMinBound Voxel.line_cloud)
                    (Voxel.GetMaxBound Voxel.line_cloud) = false
  ∧ Z.of_nat (length (points_ Voxel.line_cloud)) ≤ INT_MAX
  ∧ Forall (λ p, isInside Voxel.far_box p = false) (points_ Voxel.line_cloud)
  ∧ Voxel.voxelizeAroundPosition 0.125 Voxel.far_box Voxel.line_cloud
    = inr Voxel.line_cloud.
Proof.
  assert (H1 : Z.of_nat (length (points_ Voxel.line_cloud)) ≤ INT_MAX)
    by (by vm_compute).
  assert (H2 : Forall (λ p, isInside Voxel.far_box p = false)
                 (points_ Voxel.line_cloud))
    by (repeat constructor).
  split; [reflexivity|]. split; [reflexivity|]. split; [exact H1|].
  split; [exact H2|].
  exact (voxelizeAroundPosition_outside_passes_through Voxel.getVoxelIdx
           Voxel.computeVoxelBounds Voxel.traverse traverse_enumerates
           0.125 Voxel.far_box Voxel.line_cloud eq_refl eq_refl H1 H2).
Defined.

Lemma voxelizeAroundPosition_order_only_permutes_witness :
  m545_mapping.voxelizeAroundPosition Voxel.getVoxelIdx Voxel.computeVoxelBounds
    Voxel.traverse 0.125 Voxel.unit_box Voxel.line_cloud
  = inr (mkPointCloud [Vec3 4 0 0; Vec3 0 0 0; Vec3 0.25 0 0]
           [Vec3 1 0 0; Vec3 0 0 1; Vec3 0 1 0] [])
  ∧ m545_mapping.voxelizeAroundPosition Voxel.getVoxelIdx Voxel.computeVoxelBounds
      Voxel.traverse_backwards 0.125 Voxel.unit_box Voxel.line_cloud
    = inr (mkPointCloud [Vec3 4 0 0; Vec3 0.25 0 0; Vec3 0 0 0]
             [Vec3 1 0 0; Vec3 0 1 0; Vec3 0 0 1] [])
  ∧ [Vec3 4 0 0; Vec3 0 0 0; Vec3 0.25 0 0]
    ≡ₚ [Vec3 4 0 0; Vec3 0.25 0 0; Vec3 0 0 0].
Proof.
  assert (H1 : m545_mapping.voxelizeAroundPosition Voxel.getVoxelIdx
                 Voxel.computeVoxelBounds Voxel.traverse 0.125 Voxel.unit_box
                 Voxel.line_cloud
               = inr (mkPointCloud [Vec3 4 0 0; Vec3 0 0 0; Vec3 0.25 0 0]
                        [Vec3 1 0 0; Vec3 0 0 1; Vec3 0 1 0] []))
    by (vm_compute; reflexivity).
  assert (H2 : m545_mapping.voxelizeAroundPosition Voxel.getVoxelIdx
                 Voxel.computeVoxelBounds Voxel.traverse_backwards 0.125
                 Voxel.unit_box Voxel.line_cloud
               = inr (mkPointCloud [Vec3 4 0 0; Vec3 0.25 0 0; Vec3 0 0 0]
                        [Vec3 1 0 0; Vec3 0 1 0; Vec3 0 0 1] []))
    by (vm_compute; reflexivity).
  split; [exact H1|]. split; [exact H2|].
  destruct (voxelizeAroundPosition_order_only_permutes Voxel.getVoxelIdx
              Voxel.computeVoxelBounds Voxel.traverse Voxel.traverse_backwards
              traverse_enumerates traverse_backwards_enumerates
              0.125 Voxel.unit_box Voxel.line_cloud _ _ H1 H2)
    as [Heq|(keys1 & keys2 & _ & _ & _ & Hp & _)].
  - apply perm_skip, perm_swap.
  - exact Hp.
Defined.

Lemma voxel_normal_is_the_mean_without_nan_witness :
  D.lt D.zero 1 = true
  ∧ too_small 1 (Voxel.GetMinBound Voxel.line_cloud)
                (Voxel.GetMaxBound Voxel.line_cloud) = false
  ∧ Z.of_nat (length (points_ Voxel.line_cloud)) ≤ INT_MAX
  ∧ HasNormals Voxel.line_cloud = true
  ∧ Forall (λ n, normal_is_valid n = true) (normals_ Voxel.line_cloud)
  ∧ mean_of_valid_normals Voxel.line_cloud
      (in_voxel Voxel.getVoxelIdx Voxel.computeVoxelBounds 1 Voxel.unit_box
         Voxel.line_cloud (0, 0, 0))
    = vdiv (vsum (at_ (normals_ Voxel.line_cloud) <$>
                    in_voxel Voxel.getVoxelIdx Voxel.computeVoxelBounds 1
                      Voxel.unit_box Voxel.line_cloud (0, 0, 0)))
           (D.of_int (Z.of_nat (length
              (in_voxel Voxel.getVoxelIdx Voxel.computeVoxelBounds 1
                 Voxel.unit_box Voxel.line_cloud (0, 0, 0))))).
Proof.
  assert (H1 : Z.of_nat (length (points_ Voxel.line_cloud)) ≤ INT_MAX)
    by (by vm_compute).
  assert (H2 : Forall (λ n, normal_is_valid n = true) (normals_ Voxel.line_cloud))
    by (repeat constructor).
  split; [reflexivity|]. split; [reflexivity|]. split; [exact H1|].
  split; [reflexivity|]. split; [exact H2|].
  destruct (voxel_normal_is_the_mean_without_nan Voxel.getVoxelIdx
              Voxel.computeVoxelBounds Voxel.traverse traverse_enumerates
              1 Voxel.unit_box Voxel.line_cloud eq_refl eq_refl H1 eq_refl H2)
    as (output & keys & _ & _ & _ & _ & Hmean).
  exact (Hmean (0, 0, 0)).
Defined.

Lemma voxel_accumulators_hold_points_witness :
  (fold_left
     (scan_point Voxel.getVoxelIdx Voxel.unit_box Voxel.line_cloud (Vec3 1 1 1)
        (Voxel.GetMinBound Voxel.line_cloud) (Voxel.GetMaxBound Voxel.line_cloud))
     (scan_indices Voxel.line_cloud) (∅, emptyCloud)).1 !! (0, 0, 0)
  = Some (mkAcc 2 (Vec3 0.25 0 0) (Vec3 0 1 1) (Vec3 0 0 0))
  ∧ 1 ≤ 2 ≤ INT_MAX.
Proof.
  assert (H0 : (fold_left
     (scan_point Voxel.getVoxelIdx Voxel.unit_box Voxel.line_cloud (Vec3 1 1 1)
        (Voxel.GetMinBound Voxel.line_cloud) (Voxel.GetMaxBound Voxel.line_cloud))
     (scan_indices Voxel.line_cloud) (∅, emptyCloud)).1 !! (0, 0, 0)
    = Some (mkAcc 2 (Vec3 0.25 0 0) (Vec3 0 1 1) (Vec3 0 0 0)))
    by (vm_compute; reflexivity).
  split; [exact H0|].
  exact (proj1 (voxel_accumulators_hold_points Voxel.getVoxelIdx
                  Voxel.computeVoxelBounds 1 Voxel.unit_box Voxel.line_cloud
                  (0, 0, 0) _ H0)).
Defined.

(** Two ids, points of [line_cloud]; the search against [twin_cloud] finds
    the origin.  Against an empty cloud the search returns -1 for either
    id, and either id is returned. *)
Lemma computePointCloudDistance_aligned_witness :
  Z.of_nat (length [1; 2]) ≤ INT_MAX
  ∧ Forall (λ idx, 0 ≤ idx ≤ INT_MAX
                   ∧ idx < Z.of_nat (length (points_ Voxel.line_cloud))) [1; 2]
  ∧ computePointCloudDistance Voxel.firstPointSearch Voxel.line_cloud
      Voxel.twin_cloud [1; 2]
    = ([0.25; 4]%float, [1; 2])
  ∧ (∀ idx, idx ∈ [1; 2] →
       idx ∈ (computePointCloudDistance Voxel.firstPointSearch Voxel.line_cloud
                emptyCloud [1; 2]).2).
Proof.
  assert (H1 : Z.of_nat (length [1; 2]) ≤ INT_MAX) by (by vm_compute).
  assert (H2 : Forall (λ idx, 0 ≤ idx ≤ INT_MAX
                              ∧ idx < Z.of_nat (length (points_ Voxel.line_cloud)))
                 [1; 2])
    by (repeat constructor; by vm_compute).
  split; [exact H1|]. split; [exact H2|]. split.
  - refine (proj1 (computePointCloudDistance_aligned Voxel.firstPointSearch
                     Voxel.line_cloud Voxel.twin_cloud [1; 2] H1 H2 _)).
    repeat constructor.
  - assert (H3 : Forall
        (λ idx, (search_nearest Voxel.firstPointSearch Voxel.line_cloud
                   emptyCloud idx).1.1 ≠ 0 →
                D.le D.zero
                  (nth 0 (search_nearest Voxel.firstPointSearch Voxel.line_cloud
                            emptyCloud idx).2 D.zero) = true) [1; 2])
      by (repeat constructor).
    destruct (computePointCloudDistance_aligned Voxel.firstPointSearch
                Voxel.line_cloud emptyCloud [1; 2] H1 H2 H3)
      as (_ & _ & _ & Hneg & _).
    intros idx Hin. apply (Hneg idx Hin). reflexivity.
Defined.

(** A search that returns 0 for a point leaves the point out: the third
    point of [line_cloud] is further than 1 from the origin. *)
Example computePointCloudDistance_drops_unmatched :
  computePointCloudDistance (Voxel.nearSearch 1) Voxel.line_cloud
    Voxel.twin_cloud [0; 1; 2]
  = ([0; 0.25]%float, [0; 1]).
Proof. reflexivity. Qed.

(** A search that fails with a negative value is taken for a match: against
    an empty cloud every id comes back, with the distance 0 of the untouched
    output vector. *)
Example computePointCloudDistance_error_return :
  Forall (λ idx, (search_nearest Voxel.firstPointSearch Voxel.line_cloud
                    emptyCloud idx).1.1 = -1) [0; 1; 2]
  ∧ computePointCloudDistance Voxel.firstPointSearch Voxel.line_cloud emptyCloud
      [0; 1; 2]
    = ([0; 0; 0]%float, [0; 1; 2]).
Proof. split; [by repeat constructor | reflexivity]. Qed.

End MoreRuns.
